(** * Tasks module: transactional write-then-enqueue

    A shallow embedding of [TasksService] (modules/tasks/tasks.service.ts, in
    its three revisions) and of the two [TasksController] handlers that sit on
    top of it, followed by the properties of the write coordinator, of the
    pagination and of the batch endpoint.

    The database and the BullMQ queue are external collaborators.  They are
    modelled by an explicit [State] (the committed table, the rows seen by the
    open transaction, the queue) and by an [Engine] that fixes every choice the
    TypeScript code does not make itself: whether a given [taskQueue.add] is
    accepted, which identifier the database generates, what the clock reads,
    in which order a SELECT without ORDER BY yields its rows, and how the
    database reads a date literal or matches an ILIKE pattern.  Requests are
    run one after the other; interleavings of concurrent requests are outside
    this development. *)

From Stdlib Require Import List String Ascii ZArith Bool Lia Permutation Sorted.
Import ListNotations.

Local Open Scope string_scope.
Local Open Scope Z_scope.
Local Open Scope list_scope.

(** ** Data model *)

(** Modelled from the spec: enums/task-status.enum.ts is not among the sources;
    section 3 of the specification and the literals of [getTaskStats] give the
    three values. *)
Inductive TaskStatus : Type := PENDING | IN_PROGRESS | COMPLETED.

(** Modelled from the spec: enums/task-priority.enum.ts is not among the
    sources; section 3 of the specification gives the three values. *)
Inductive TaskPriority : Type := LOW | MEDIUM | HIGH.

Definition TaskStatus_eqb (a b : TaskStatus) : bool :=
  match a, b with
  | PENDING, PENDING | IN_PROGRESS, IN_PROGRESS | COMPLETED, COMPLETED => true
  | _, _ => false
  end.

Definition TaskPriority_eqb (a b : TaskPriority) : bool :=
  match a, b with
  | LOW, LOW | MEDIUM, MEDIUM | HIGH, HIGH => true
  | _, _ => false
  end.

(** The string a query parameter has to carry to denote an enum value. *)
Definition TaskStatus_of_string (s : string) : option TaskStatus :=
  if (s =? "PENDING")%string then Some PENDING
  else if (s =? "IN_PROGRESS")%string then Some IN_PROGRESS
  else if (s =? "COMPLETED")%string then Some COMPLETED
  else None.

Definition TaskPriority_of_string (s : string) : option TaskPriority :=
  if (s =? "LOW")%string then Some LOW
  else if (s =? "MEDIUM")%string then Some MEDIUM
  else if (s =? "HIGH")%string then Some HIGH
  else None.

(** Modelled from the spec: entities/task.entity.ts is not among the sources;
    the columns are those of section 3 of the specification.  Timestamps are
    integers (milliseconds). *)
Record Task : Type := mkTask {
  id : string;
  title : string;
  description : option string;
  status : TaskStatus;
  priority : TaskPriority;
  dueDate : option Z;
  userId : string;
  createdAt : Z
}.

(** Modelled from the spec: dto/create-task.dto.ts is not among the sources.
    A field the request leaves out is [None]. *)
Module CreateTaskDto.
Record t : Type := make {
  title : string;
  description : option string;
  status : option TaskStatus;
  priority : option TaskPriority;
  dueDate : option Z;
  userId : string
}.
End CreateTaskDto.

(** dto/update-task.dto.ts is not among the sources either; its fields are the
    five that the first revision of [update] reads one by one. *)
Module UpdateTaskDto.
Record t : Type := make {
  title : option string;
  description : option string;
  status : option TaskStatus;
  priority : option TaskPriority;
  dueDate : option Z
}.
End UpdateTaskDto.

(** dto/task-filter.dto.ts *)
Module TaskFilterDto.
Record t : Type := make {
  status : option TaskStatus;
  priority : option TaskPriority;
  search : option string;
  fromDate : option string;
  toDate : option string;
  userId : option string
}.
End TaskFilterDto.

(** The payload of a 'task-status-update' job. *)
Module Job.
Record t : Type := make {
  taskId : string;
  status : TaskStatus
}.
End Job.

(** ** Exceptions and outcomes *)

Inductive Exception : Type :=
| NotFoundException (message : string)
| HttpException (message : string) (code : Z)
| TypeORMError (message : string)
| QueryFailedError (message : string)
| QueueError (message : string).

Definition message (e : Exception) : string :=
  match e with
  | NotFoundException m | HttpException m _ | TypeORMError m
  | QueryFailedError m | QueueError m => m
  end.

Definition BAD_REQUEST : Z := 400.
Definition NOT_FOUND : Z := 404.
Definition INTERNAL_SERVER_ERROR : Z := 500.
Definition OK : Z := 200.

(** The status code the framework answers with when a handler throws [e]. *)
Definition http_status (e : Exception) : Z :=
  match e with
  | NotFoundException _ => NOT_FOUND
  | HttpException _ code => code
  | _ => INTERNAL_SERVER_ERROR
  end.

Inductive Outcome (A : Type) : Type :=
| Returned (a : A)
| Thrown (e : Exception).

Arguments Returned {A} a.
Arguments Thrown {A} e.

(** ** The world the service runs in *)

Record State : Type := mkState {
  table : list Task;          (* committed rows, in insertion order *)
  tx : option (list Task);    (* rows as seen by the open transaction *)
  queue : list Job.t;         (* jobs the queue has accepted, oldest first *)
  sent : list Job.t;          (* every job handed to taskQueue.add *)
  inserts : nat               (* number of INSERTs issued so far *)
}.

Record Engine : Type := mkEngine {
  (* whether the n-th call of taskQueue.add, carrying this job, is accepted *)
  accepts : nat -> Job.t -> bool;
  (* the identifier generated for the n-th INSERT *)
  uuid : nat -> string;
  (* the clock reading stamped on the n-th INSERT *)
  now : nat -> Z;
  (* the order in which a SELECT without ORDER BY yields the selected rows *)
  row_order : list Task -> list Task;
  row_order_perm : forall l, Permutation (row_order l) l;
  (* the database's reading of a date literal *)
  timestamp_of_string : string -> option Z;
  (* the database's [text ILIKE pattern], under its encoding and locale *)
  ilike : string -> string -> bool
}.

(** An async function: it runs from a state and either returns or throws. *)
Definition Async (A : Type) : Type := State -> State * Outcome A.

Definition ret {A : Type} (a : A) : Async A := fun s => (s, Returned a).

Definition throw {A : Type} (e : Exception) : Async A := fun s => (s, Thrown e).

Definition bind {A B : Type} (m : Async A) (k : A -> Async B) : Async B :=
  fun s =>
    match m s with
    | (s', Returned a) => k a s'
    | (s', Thrown e) => (s', Thrown e)
    end.

Notation "x <- m ;; k" := (bind m (fun x => k))
  (at level 61, m at next level, right associativity).
Notation "m ;; k" := (bind m (fun _ => k))
  (at level 61, right associativity).

(** try { body } catch (err) { handler err } *)
Definition try_catch {A : Type} (body : Async A) (handler : Exception -> Async A)
  : Async A :=
  fun s =>
    match body s with
    | (s', Returned a) => (s', Returned a)
    | (s', Thrown e) => handler e s'
    end.

(** try { body } finally { cleanup } *)
Definition try_finally {A : Type} (body : Async A) (cleanup : Async unit)
  : Async A :=
  fun s =>
    match body s with
    | (s', r) =>
        match cleanup s' with
        | (s'', Returned _) => (s'', r)
        | (s'', Thrown e) => (s'', Thrown e)
        end
    end.

(** A promise that is created but never awaited: the callee runs, its outcome
    stays inside the promise object and is not raised in the caller.  When
    the promise rejects, the rejection is left unhandled; what the runtime
    then does with the process (Node's default is to end it) is decided
    outside these methods and is not part of this model, which follows the
    call itself up to its own return. *)
Definition Promise (A : Type) : Type := Outcome A.

Definition not_awaited {A : Type} (m : Async A) : Async (Promise A) :=
  fun s => match m s with (s', r) => (s', Returned r) end.

(** [!p] on a promise: an object is never falsy. *)
Definition falsy_promise {A : Type} (p : Promise A) : bool := false.

(** [if (x)] on a string: the empty string is falsy. *)
Definition truthy (s : string) : bool := negb (s =? "")%string.

Definition truthy_opt (o : option string) : bool :=
  match o with
  | Some s => truthy s
  | None => false
  end.

(** ** The query runner *)

Definition with_table (r : list Task) (s : State) : State :=
  mkState r (tx s) (queue s) (sent s) (inserts s).

Definition with_tx (t : option (list Task)) (s : State) : State :=
  mkState (table s) t (queue s) (sent s) (inserts s).

(** The rows a statement issued through [queryRunner.manager] sees. *)
Definition view (s : State) : list Task :=
  match tx s with
  | Some r => r
  | None => table s
  end.

Definition write_view (r : list Task) (s : State) : State :=
  match tx s with
  | Some _ => with_tx (Some r) s
  | None => with_table r s
  end.

Definition startTransaction : Async unit :=
  fun s => (with_tx (Some (table s)) s, Returned tt).

Definition commitTransaction : Async unit :=
  fun s =>
    match tx s with
    | Some r => (with_tx None (with_table r s), Returned tt)
    | None => (s, Thrown (TypeORMError "Transaction is not started yet, start transaction before committing or rolling it back."))
    end.

Definition rollbackTransaction : Async unit :=
  fun s =>
    match tx s with
    | Some _ => (with_tx None s, Returned tt)
    | None => (s, Thrown (TypeORMError "Transaction is not started yet, start transaction before committing or rolling it back."))
    end.

Definition release : Async unit := ret tt.

Definition has_id (i : string) (t : Task) : bool := (id t =? i)%string.

Definition mem (i : string) (ids : list string) : bool :=
  existsb (String.eqb i) ids.

(** Column defaults of the entity.  Modelled from the spec: section 3 gives
    PENDING as the status of a task created without one; the default priority
    is not stated there and is taken to be MEDIUM (nothing below depends on
    it). *)
Definition default_status : TaskStatus := PENDING.
Definition default_priority : TaskPriority := MEDIUM.

(** [tasksRepository.create(dto)]: an entity object carrying the fields of the
    DTO, not yet persisted and without identifier. *)
Definition tasksRepository_create (dto : CreateTaskDto.t) : CreateTaskDto.t := dto.

(** [manager.save(entity)] on an entity without identifier: an INSERT.  The
    database generates the primary key and the creation date; a key already
    present violates the primary-key constraint. *)
Definition manager_save_new (E : Engine) (draft : CreateTaskDto.t) : Async Task :=
  fun s =>
    let n := inserts s in
    let task :=
      mkTask (uuid E n)
             (CreateTaskDto.title draft)
             (CreateTaskDto.description draft)
             (match CreateTaskDto.status draft with
              | Some st => st
              | None => default_status
              end)
             (match CreateTaskDto.priority draft with
              | Some p => p
              | None => default_priority
              end)
             (CreateTaskDto.dueDate draft)
             (CreateTaskDto.userId draft)
             (now E n) in
    let s1 := mkState (table s) (tx s) (queue s) (sent s) (S n) in
    if existsb (has_id (id task)) (view s1)
    then (s1, Thrown (QueryFailedError "duplicate key value violates unique constraint"))
    else (write_view (view s1 ++ [task]) s1, Returned task).

(** [manager.findOne(Task, { where: { id } })] *)
Definition manager_findOne (i : string) : Async (option Task) :=
  fun s => (s, Returned (find (has_id i) (view s))).

Definition replace_row (task : Task) (r : Task) : Task :=
  if has_id (id task) r then task else r.

(** [manager.save(task)] on an entity loaded in the same transaction: an
    UPDATE of the row with its identifier. *)
Definition manager_save (task : Task) : Async Task :=
  fun s => (write_view (map (replace_row task) (view s)) s, Returned task).

Definition set_status (st : TaskStatus) (t : Task) : Task :=
  mkTask (id t) (title t) (description t) st (priority t) (dueDate t)
         (userId t) (createdAt t).

(** [manager.update(Task, ids, { status })]: UPDATE ... WHERE id IN (ids).
    TypeORM rejects an empty list of criteria before any statement is sent. *)
Definition manager_update (ids : list string) (st : TaskStatus) : Async unit :=
  fun s =>
    match ids with
    | [] => (s, Thrown (TypeORMError "Empty criteria(s) are not allowed for the update method."))
    | _ =>
        (write_view
           (map (fun r => if mem (id r) ids then set_status st r else r) (view s)) s,
         Returned tt)
    end.

(** [manager.find(Task, { where: { id: In(ids) } })] *)
Definition manager_find_in (E : Engine) (ids : list string) : Async (list Task) :=
  fun s => (s, Returned (row_order E (filter (fun r => mem (id r) ids) (view s)))).

(** [manager.delete(Task, ids)]: DELETE ... WHERE id IN (ids), with the same
    guard on an empty list of criteria. *)
Definition manager_delete (ids : list string) : Async unit :=
  fun s =>
    match ids with
    | [] => (s, Thrown (TypeORMError "Empty criteria(s) are not allowed for the delete method."))
    | _ =>
        (write_view (filter (fun r => negb (mem (id r) ids)) (view s)) s,
         Returned tt)
    end.

(** ** The repository (statements outside any transaction) *)

Definition tasksRepository_findOne (i : string) : Async (option Task) :=
  fun s => (s, Returned (find (has_id i) (table s))).

Definition tasksRepository_save (task : Task) : Async Task :=
  fun s => (with_table (map (replace_row task) (table s)) s, Returned task).

(** [tasksRepository.remove(task)] *)
Definition tasksRepository_remove (task : Task) : Async unit :=
  fun s =>
    (with_table (filter (fun r => negb (has_id (id task) r)) (table s)) s,
     Returned tt).

(** [tasksRepository.delete({ id })]: DELETE ... WHERE id = :id; deleting no
    row is not an error. *)
Definition tasksRepository_delete (i : string) : Async unit :=
  fun s =>
    (with_table (filter (fun r => negb (has_id i r)) (table s)) s, Returned tt).

(** Rows by ascending primary key. *)
Fixpoint insert_by_id (t : Task) (l : list Task) : list Task :=
  match l with
  | [] => [t]
  | r :: l' =>
      if String.leb (id t) (id r) then t :: l else r :: insert_by_id t l'
  end.

Definition order_by_id (l : list Task) : list Task :=
  fold_right insert_by_id [] l.

(** The largest offset or limit the database reads (a bigint). *)
Definition BIGINT_MAX : Z := 9223372036854775807.

(** OFFSET skip LIMIT take, as the ORM writes them: a limit of 0 is left out
    of the statement, so that every row after the offset is returned; the
    database refuses a negative value and one beyond its bigint range. *)
Definition paginate (skip take : Z) (l : list Task) : Outcome (list Task) :=
  if (skip <? 0) || (take <? 0)
  then Thrown (QueryFailedError "OFFSET and LIMIT must not be negative")
  else if (BIGINT_MAX <? skip) || (BIGINT_MAX <? take)
  then Thrown (QueryFailedError "bigint out of range")
  else Returned (let rest := skipn (Z.to_nat skip) l in
                 if take =? 0 then rest else firstn (Z.to_nat take) rest).

(** A find over the committed table with a row predicate, the user relation
    joined, no ORDER BY, and [skip] and [take].  With both at 0 the ORM sends
    the plain query.  Otherwise it pages a joined query in two steps: the
    identifiers of the page are those at OFFSET skip LIMIT take of the
    selected rows by ascending primary key, and the rows with these
    identifiers are then read without ordering, that is in the order the
    database yields them. *)
Definition select (E : Engine) (p : Task -> bool) (skip take : Z)
  : Async (list Task) :=
  fun s =>
    let selected := filter p (table s) in
    if (skip =? 0) && (take =? 0)
    then (s, Returned (row_order E selected))
    else match paginate skip take (order_by_id selected) with
         | Returned page => (s, Returned (row_order E page))
         | Thrown e => (s, Thrown e)
         end.

(** ** The queue *)

(** [taskQueue.add('task-status-update', job)] *)
Definition taskQueue_add (E : Engine) (job : Job.t) : Async unit :=
  fun s =>
    let n := List.length (sent s) in
    if accepts E n job
    then (mkState (table s) (tx s) (queue s ++ [job]) (sent s ++ [job]) (inserts s),
          Returned tt)
    else (mkState (table s) (tx s) (queue s) (sent s ++ [job]) (inserts s),
          Thrown (QueueError "Failed to add job to queue")).

(** ** TasksService (the revision the controller is written against) *)

(** The job payload { taskId: task.id, status: task.status }. *)
Definition job_of (task : Task) : Job.t := Job.make (id task) (status task).

Definition create (E : Engine) (createTaskDto : CreateTaskDto.t) : Async Task :=
  startTransaction ;;
  try_finally
    (try_catch
       (let task := tasksRepository_create createTaskDto in
        savedTask <- manager_save_new E task ;;
        taskQueue_add E (Job.make (id savedTask) (status savedTask)) ;;
        commitTransaction ;;
        ret savedTask)
       (fun err => rollbackTransaction ;; throw err))
    release.

(** The object literal handed to [tasksRepository.find] as [where]. *)
Module WhereClause.
Record t : Type := make {
  user_id : string;
  status : option string;
  priority : option string
}.
End WhereClause.

(** A string compared with an enum column: absent, a label of the enum, or a
    value the database refuses. *)
Definition enum_param {A : Type} (parse : string -> option A) (o : option string)
  : option (option A) :=
  match o with
  | None => Some None
  | Some s =>
      match parse s with
      | Some v => Some (Some v)
      | None => None
      end
  end.

Definition where_matches (u : string) (st : option TaskStatus)
  (pr : option TaskPriority) (r : Task) : bool :=
  (userId r =? u)%string
  && match st with Some v => TaskStatus_eqb (status r) v | None => true end
  && match pr with Some v => TaskPriority_eqb (priority r) v | None => true end.

(** [tasksRepository.find({ where, relations: ['user'], skip, take })] *)
Definition tasksRepository_find (E : Engine) (w : WhereClause.t) (skip take : Z)
  : Async (list Task) :=
  match enum_param TaskStatus_of_string (WhereClause.status w),
        enum_param TaskPriority_of_string (WhereClause.priority w) with
  | Some st, Some pr => select E (where_matches (WhereClause.user_id w) st pr) skip take
  | _, _ => throw (QueryFailedError "invalid input value for enum")
  end.

Definition findAll (E : Engine) (userId : string) (currentPage pageSize : Z)
  (status priority : string) : Async (list Task) :=
  let whereClause :=
    WhereClause.make userId
      (if truthy status then Some status else None)
      (if truthy priority then Some priority else None) in
  tasksRepository_find E whereClause ((currentPage - 1) * pageSize) pageSize.

Definition findOne (i : string) : Async Task :=
  task <- tasksRepository_findOne i ;;
  match task with
  | None => throw (NotFoundException "Task not found")
  | Some t => ret t
  end.

(** [Object.assign(task, updateTaskDto)]: every property the DTO carries
    overwrites the property of the same name. *)
Definition assign (task : Task) (dto : UpdateTaskDto.t) : Task :=
  mkTask (id task)
         (match UpdateTaskDto.title dto with Some v => v | None => title task end)
         (match UpdateTaskDto.description dto with
          | Some v => Some v
          | None => description task
          end)
         (match UpdateTaskDto.status dto with Some v => v | None => status task end)
         (match UpdateTaskDto.priority dto with Some v => v | None => priority task end)
         (match UpdateTaskDto.dueDate dto with
          | Some v => Some v
          | None => dueDate task
          end)
         (userId task)
         (createdAt task).

Definition update (E : Engine) (i : string) (updateTaskDto : UpdateTaskDto.t)
  : Async Task :=
  startTransaction ;;
  try_finally
    (try_catch
       (found <- manager_findOne i ;;
        match found with
        | None => throw (NotFoundException "Task not found")
        | Some task =>
            let originalStatus := status task in
            let task := assign task updateTaskDto in
            updatedTask <- manager_save task ;;
            (if negb (TaskStatus_eqb originalStatus (status updatedTask))
             then taskQueue_add E (Job.make (id updatedTask) (status updatedTask))
             else ret tt) ;;
            commitTransaction ;;
            ret updatedTask
        end)
       (fun err => rollbackTransaction ;; throw err))
    release.

(** for (const task of updatedTasks) await this.taskQueue.add(...) *)
Fixpoint publish_each (E : Engine) (tasks : list Task) : Async unit :=
  match tasks with
  | [] => ret tt
  | task :: rest =>
      taskQueue_add E (Job.make (id task) (status task)) ;;
      publish_each E rest
  end.

(** The only caller passes [TaskStatus.COMPLETED]; the parameter is typed by
    the enum it is cast to. *)
Definition bulkUpdateStatus (E : Engine) (ids : list string) (st : TaskStatus)
  : Async (list Task) :=
  startTransaction ;;
  try_finally
    (try_catch
       (manager_update ids st ;;
        updatedTasks <- manager_find_in E ids ;;
        publish_each E updatedTasks ;;
        commitTransaction ;;
        ret updatedTasks)
       (fun err => rollbackTransaction ;; throw err))
    release.

Definition remove (i : string) : Async unit :=
  tasksRepository_delete i.

Definition bulkDelete (ids : list string) : Async unit :=
  startTransaction ;;
  try_finally
    (try_catch
       (manager_delete ids ;;
        commitTransaction)
       (fun err => rollbackTransaction ;; throw err))
    release.

(** ** The revision of findAll built on the query builder *)

Module QueryBuilder.

(** A date literal compared with a timestamp column: absent, readable, or
    refused by the database. *)
Definition date_param (E : Engine) (o : option string) : option (option Z) :=
  match o with
  | Some s =>
      if truthy s
      then match timestamp_of_string E s with
           | Some z => Some (Some z)
           | None => None
           end
      else Some None
  | None => Some None
  end.

Definition andWhere (E : Engine) (u : string) (filter : TaskFilterDto.t)
  (fromDate toDate : option Z) (r : Task) : bool :=
  (userId r =? u)%string
  && match TaskFilterDto.status filter with
     | Some v => TaskStatus_eqb (status r) v
     | None => true
     end
  && match TaskFilterDto.priority filter with
     | Some v => TaskPriority_eqb (priority r) v
     | None => true
     end
  && match fromDate with Some z => (z <=? createdAt r)%Z | None => true end
  && match toDate with Some z => (createdAt r <=? z)%Z | None => true end
  && match TaskFilterDto.search filter with
     | Some q =>
         if truthy q
         then
           let pattern := ("%" ++ q ++ "%")%string in
           ilike E (title r) pattern
           || match description r with
              | Some d => ilike E d pattern
              | None => false
              end
         else true
     | None => true
     end.

(** The [whereClause] object this revision also fills is never handed to
    the query and has no effect. *)
Definition findAll (E : Engine) (userId : string) (currentPage pageSize : Z)
  (filter : TaskFilterDto.t) : Async (list Task) :=
  match date_param E (TaskFilterDto.fromDate filter),
        date_param E (TaskFilterDto.toDate filter) with
  | Some fromDate, Some toDate =>
      select E (andWhere E userId filter fromDate toDate)
             ((currentPage - 1) * pageSize) pageSize
  | _, _ => throw (QueryFailedError "invalid input syntax for type timestamp")
  end.

End QueryBuilder.

(** ** The first revision of update and remove (no transaction) *)

Module FirstRevision.

(** if (dto.f) task.f = dto.f, field by field: a field that is absent, or
    present with the empty string, is left alone. *)
Definition assign_truthy (task : Task) (dto : UpdateTaskDto.t) : Task :=
  mkTask (id task)
         (match UpdateTaskDto.title dto with
          | Some v => if truthy v then v else title task
          | None => title task
          end)
         (match UpdateTaskDto.description dto with
          | Some v => if truthy v then Some v else description task
          | None => description task
          end)
         (match UpdateTaskDto.status dto with Some v => v | None => status task end)
         (match UpdateTaskDto.priority dto with Some v => v | None => priority task end)
         (match UpdateTaskDto.dueDate dto with
          | Some v => Some v
          | None => dueDate task
          end)
         (userId task)
         (createdAt task).

Definition update (E : Engine) (i : string) (updateTaskDto : UpdateTaskDto.t)
  : Async Task :=
  task <- findOne i ;;
  let originalStatus := status task in
  let task := assign_truthy task updateTaskDto in
  updatedTask <- tasksRepository_save task ;;
  (if negb (TaskStatus_eqb originalStatus (status updatedTask))
   then not_awaited (taskQueue_add E (Job.make (id updatedTask) (status updatedTask)))
        ;; ret tt
   else ret tt) ;;
  ret updatedTask.

Definition remove (i : string) : Async unit :=
  task <- findOne i ;;
  tasksRepository_remove task.

End FirstRevision.

(** ** TasksController *)

Module DeleteResponse.
Record t : Type := make {
  statusCode : Z;
  message : string
}.
End DeleteResponse.

Module BatchRequest.
Record t : Type := make {
  tasks : list string;
  action : string
}.
End BatchRequest.

Module BatchResponse.
Record t : Type := make {
  success : bool;
  affected : nat;
  taskIds : list string
}.
End BatchResponse.

(** What the local variable [result] of [batchProcess] can hold. *)
Inductive BatchResult : Type :=
| TaskArray (tasks : list Task)
| Undefined.

Module TasksController.

Definition remove (i : string) : Async DeleteResponse.t :=
  task <- not_awaited (findOne i) ;;
  (if falsy_promise task
   then throw (NotFoundException "Task not found")
   else ret tt) ;;
  remove i ;;
  ret (DeleteResponse.make OK "Task successfully deleted").

Definition batchProcess (E : Engine) (operations : BatchRequest.t)
  : Async BatchResponse.t :=
  let taskIds := BatchRequest.tasks operations in
  let action := BatchRequest.action operations in
  try_catch
    (result <-
       (if (action =? "complete")%string
        then (r <- bulkUpdateStatus E taskIds COMPLETED ;; ret (TaskArray r))
        else if (action =? "delete")%string
        then (bulkDelete taskIds ;; ret Undefined)
        else throw (HttpException ("Unknown action: " ++ action)%string BAD_REQUEST)) ;;
     ret (BatchResponse.make
            true
            (match result with
             | TaskArray l => List.length l
             | Undefined => 0%nat
             end)
            taskIds))
    (fun error => throw (HttpException (message error) INTERNAL_SERVER_ERROR)).

End TasksController.

(** ** Vocabulary of the statements *)

(** The status a task is stored with by [create]. *)
Definition created_status (dto : CreateTaskDto.t) : TaskStatus :=
  match CreateTaskDto.status dto with
  | Some st => st
  | None => default_status
  end.

(** What partial replacement means for a task before and after an update:
    the identifier, the creation date and the owner stay, and so does every
    field the DTO does not carry. *)
Definition keeps_absent_fields (dto : UpdateTaskDto.t) (before after : Task) : Prop :=
  id after = id before
  /\ createdAt after = createdAt before
  /\ userId after = userId before
  /\ (UpdateTaskDto.title dto = None -> title after = title before)
  /\ (UpdateTaskDto.description dto = None -> description after = description before)
  /\ (UpdateTaskDto.status dto = None -> status after = status before)
  /\ (UpdateTaskDto.priority dto = None -> priority after = priority before)
  /\ (UpdateTaskDto.dueDate dto = None -> dueDate after = dueDate before).

(** Every field the DTO carries has the DTO's value afterwards. *)
Definition takes_present_fields (dto : UpdateTaskDto.t) (after : Task) : Prop :=
  (forall v, UpdateTaskDto.title dto = Some v -> title after = v)
  /\ (forall v, UpdateTaskDto.description dto = Some v -> description after = Some v)
  /\ (forall v, UpdateTaskDto.status dto = Some v -> status after = v)
  /\ (forall v, UpdateTaskDto.priority dto = Some v -> priority after = v)
  /\ (forall v, UpdateTaskDto.dueDate dto = Some v -> dueDate after = Some v).

(** The rows of the table after UPDATE ... SET status WHERE id IN (ids). *)
Definition bulk_rows (ids : list string) (st : TaskStatus) (rows : list Task)
  : list Task :=
  map (fun r => if mem (id r) ids then set_status st r else r) rows.

(** The tasks the bulk update reads back, in the order the engine yields
    them: they are the ones it publishes a job for. *)
Definition bulk_updated (E : Engine) (ids : list string) (st : TaskStatus)
  (rows : list Task) : list Task :=
  row_order E (filter (fun r => mem (id r) ids) (bulk_rows ids st rows)).

(** The rows a listing call hands back (none when it throws). *)
Definition page_rows (r : State * Outcome (list Task)) : list Task :=
  match snd r with
  | Returned l => l
  | Thrown _ => []
  end.

(** Pages 1, 2, ..., m of a listing, one after the other. *)
Definition listing (page : Z -> Async (list Task)) (s : State) (m : nat)
  : list Task :=
  flat_map (fun k => page_rows (page (Z.of_nat k) s)) (seq 1 m).

Definition TaskStatus_label (st : TaskStatus) : string :=
  match st with
  | PENDING => "PENDING"
  | IN_PROGRESS => "IN_PROGRESS"
  | COMPLETED => "COMPLETED"
  end.

Definition TaskPriority_label (p : TaskPriority) : string :=
  match p with
  | LOW => "LOW"
  | MEDIUM => "MEDIUM"
  | HIGH => "HIGH"
  end.

(** The query-string value of an optional filter: the label, or the empty
    string the controller substitutes for an absent parameter. *)
Definition query_param {A : Type} (label : A -> string) (o : option A) : string :=
  match o with
  | Some v => label v
  | None => ""
  end.



(** ** Sample engines and states *)

(** A sample ILIKE, exact for text of ASCII letters only: '%' stands for any
    run of characters, '_' for any single one, a backslash takes the next
    character literally, and the letters A-Z match their lower-case forms. *)
Definition ascii_lower (c : ascii) : ascii :=
  let n := nat_of_ascii c in
  if (Nat.leb 65 n && Nat.leb n 90)%bool then ascii_of_nat (n + 32) else c.

Fixpoint ascii_like (p : list ascii) : list ascii -> bool :=
  match p with
  | [] => fun s => match s with [] => true | _ :: _ => false end
  | "%"%char :: p' =>
      fix star (s : list ascii) : bool :=
        ascii_like p' s || match s with [] => false | _ :: s' => star s' end
  | "_"%char :: p' =>
      fun s => match s with [] => false | _ :: s' => ascii_like p' s' end
  | "\"%char :: c :: p' =>
      fun s =>
        match s with
        | [] => false
        | d :: s' => Ascii.eqb (ascii_lower c) (ascii_lower d) && ascii_like p' s'
        end
  | c :: p' =>
      fun s =>
        match s with
        | [] => false
        | d :: s' => Ascii.eqb (ascii_lower c) (ascii_lower d) && ascii_like p' s'
        end
  end.

Definition ascii_ILIKE (s pattern : string) : bool :=
  ascii_like (list_ascii_of_string pattern) (list_ascii_of_string s).

(** An engine that yields rows in the order in which they were selected,
    generates the identifiers of [ids] one after the other, stamps the n-th
    insert with [n], and lets [ok] decide which jobs the queue accepts. *)
Definition insertion_order_engine (ok : nat -> Job.t -> bool) (ids : list string)
  : Engine :=
  mkEngine ok
           (fun n => nth n ids ""%string)
           (fun n => Z.of_nat n)
           (fun l => l)
           (fun l => Permutation_refl l)
           (fun _ => None)
           ascii_ILIKE.

Definition always : nat -> Job.t -> bool := fun _ _ => true.
Definition never : nat -> Job.t -> bool := fun _ _ => false.

Definition empty : State := mkState [] None [] [] 0.

Definition sample_dto (t u : string) : CreateTaskDto.t :=
  CreateTaskDto.make t None None None None u.

Definition sample_task (i : string) (st : TaskStatus) (at_ : Z) : Task :=
  mkTask i "write report" None st MEDIUM None "u1" at_.

Definition stored (rows : list Task) : State :=
  mkState rows None [] [] (List.length rows).

(** Ordering by primary key rearranges the rows and nothing else. *)
Fixpoint insert_by_id_perm (t : Task) (l : list Task)
  : Permutation (insert_by_id t l) (t :: l) :=
  match l with
  | [] => Permutation_refl [t]
  | r :: l' =>
      if String.leb (id t) (id r) as b
         return Permutation (if b then t :: r :: l' else r :: insert_by_id t l')
                            (t :: r :: l')
      then Permutation_refl (t :: r :: l')
      else Permutation_trans (perm_skip r (insert_by_id_perm t l'))
                             (perm_swap t r l')
  end.

Fixpoint order_by_id_perm (l : list Task) : Permutation (order_by_id l) l :=
  match l with
  | [] => perm_nil Task
  | t :: l' =>
      Permutation_trans (insert_by_id_perm t (order_by_id l'))
                        (perm_skip t (order_by_id_perm l'))
  end.

(** An engine whose SELECTs yield rows by ascending primary key. *)
Definition primary_key_engine (ok : nat -> Job.t -> bool) (ids : list string)
  : Engine :=
  mkEngine ok
           (fun n => nth n ids ""%string)
           (fun n => Z.of_nat n)
           order_by_id
           order_by_id_perm
           (fun _ => None)
           ascii_ILIKE.






(** ** The remaining methods of TasksService *)

(** [tasksRepository.find({ where })] and the raw SELECT ... WHERE of the
    first revision: the selected rows, without offset or limit. *)
Definition tasksRepository_find_where (E : Engine) (p : Task -> bool)
  : Async (list Task) :=
  fun s => (s, Returned (row_order E (filter p (table s)))).

Definition getAllTasks (E : Engine) : Async (list Task) :=
  tasksRepository_find_where E (fun _ => true).

(** The row [getRawOne] hands back; the counts are natural numbers. *)
Module TaskStats.
Record t : Type := make {
  total : nat;
  completed : nat;
  inProgress : nat;
  pending : nat;
  highPriority : nat
}.
End TaskStats.

(** COUNT( * ) FILTER (WHERE p) *)
Definition count_filter (p : Task -> bool) (rows : list Task) : nat :=
  List.length (filter p rows).

Definition has_status (st : TaskStatus) (r : Task) : bool :=
  TaskStatus_eqb (status r) st.

Definition has_priority (p : TaskPriority) (r : Task) : bool :=
  TaskPriority_eqb (priority r) p.

Definition getTaskStats : Async TaskStats.t :=
  fun s =>
    let rows := table s in
    (s, Returned (TaskStats.make
                    (List.length rows)
                    (count_filter (has_status COMPLETED) rows)
                    (count_filter (has_status IN_PROGRESS) rows)
                    (count_filter (has_status PENDING) rows)
                    (count_filter (has_priority HIGH) rows))).

Definition findByStatus (E : Engine) (st : TaskStatus) : Async (list Task) :=
  tasksRepository_find_where E (has_status st).

(** [applyStatusUpdateFromQueue] (named [updateStatus] in the first
    revision).  The status arrives as a string; one that is no label of the
    enum is refused by the database when the row is saved. *)
Definition applyStatusUpdateFromQueue (i : string) (status : string) : Async Task :=
  task <- findOne i ;;
  match TaskStatus_of_string status with
  | Some st => tasksRepository_save (set_status st task)
  | None => throw (QueryFailedError "invalid input value for enum")
  end.

(** ** The remaining handlers of TasksController *)

(** [!task] on a task object: an object is never falsy. *)
Definition falsy_task (t : Task) : bool := false.

Module Controller.

Definition create (E : Engine) (createTaskDto : CreateTaskDto.t) : Async Task :=
  create E createTaskDto.

Definition getStats : Async TaskStats.t :=
  statistics <- getTaskStats ;;
  ret statistics.

(** GET :id *)
Definition findOne (i : string) : Async Task :=
  task <- findOne i ;;
  (if falsy_task task
   then throw (NotFoundException "Task not found")
   else ret tt) ;;
  ret task.

End Controller.

(** ** Vocabulary of the further statements *)

(** A DTO that carries no field. *)
Definition empty_update : UpdateTaskDto.t :=
  UpdateTaskDto.make None None None None None.

(** * Properties *)

(** ** Running the combinators *)

Ltac run :=
  unfold create, update, bulkUpdateStatus, bulkDelete, remove, findOne,
    bind, ret, throw, try_catch, try_finally, not_awaited,
    startTransaction, commitTransaction, rollbackTransaction, release,
    manager_save_new, manager_findOne, manager_save, manager_update,
    manager_find_in, manager_delete, tasksRepository_findOne,
    tasksRepository_save, tasksRepository_remove, tasksRepository_delete,
    tasksRepository_create, taskQueue_add, write_view, view, with_tx,
    with_table in *;
  simpl in *.

(** ** create *)

Lemma has_id_absent (i : string) (l : list Task) :
  existsb (has_id i) l = false -> ~ In i (map id l).
Proof.
  induction l as [|r l IH]; simpl; intros H.
  - tauto.
  - apply orb_false_iff in H. destruct H as [Hr Hl].
    intros [Heq | Hin].
    + unfold has_id in Hr. rewrite Heq, String.eqb_refl in Hr. discriminate.
    + now apply IH.
Qed.

Lemma has_id_present (i : string) (l : list Task) :
  existsb (has_id i) l = true -> In i (map id l).
Proof.
  intros H. apply existsb_exists in H. destruct H as (r & Hin & Hr).
  apply in_map_iff. exists r. split; [| exact Hin].
  now apply String.eqb_eq.
Qed.

(** C1.  A create() that returns has appended exactly one row, with an
    identifier that was not in the table, and has enqueued exactly one job,
    carrying that row's id and status; it does return when the generated
    identifier is new and the queue accepts the job.  A create() that throws
    leaves the table and the queue as they were; and when the queue refuses
    the job of the new task, create() does throw. *)
Theorem create_store_and_queue_agree (E : Engine) (dto : CreateTaskDto.t) (s : State) :
  let job := Job.make (uuid E (inserts s)) (created_status dto) in
  (forall s' t,
      create E dto s = (s', Returned t) ->
      table s' = table s ++ [t]
      /\ ~ In (id t) (map id (table s))
      /\ queue s' = queue s ++ [Job.make (id t) (status t)]
      /\ sent s' = sent s ++ [Job.make (id t) (status t)])
  /\ (~ In (uuid E (inserts s)) (map id (table s)) ->
      accepts E (List.length (sent s)) job = true ->
      exists s' t, create E dto s = (s', Returned t))
  /\ (forall s' e,
         create E dto s = (s', Thrown e) ->
         table s' = table s /\ queue s' = queue s /\ tx s' = None)
  /\ (accepts E (List.length (sent s)) job = false ->
      exists s' e, create E dto s = (s', Thrown e)).
Proof.
  unfold created_status. run.
  destruct (existsb (has_id (uuid E (inserts s))) (table s)) eqn:Hdup; simpl.
  - apply has_id_present in Hdup.
    repeat split; intros; try discriminate; try contradiction.
    + now inversion H.
    + now inversion H.
    + now inversion H.
    + eauto.
  - destruct (accepts E (List.length (sent s)) _) eqn:Hacc; simpl.
    + repeat split; intros; try discriminate;
        try (inversion H; subst; simpl; auto).
      * now apply has_id_absent.
      * eauto.
    + repeat split; intros; try discriminate;
        try (inversion H; subst; simpl; auto).
      eauto.
Qed.

Lemma create_store_and_queue_agree_witness :
  let dto := sample_dto "write report" "u1" in
  let t := mkTask "a" "write report" None PENDING MEDIUM None "u1" 0 in
  (let s' := fst (create (insertion_order_engine always ["a"%string]) dto empty) in
   table s' = [t] /\ queue s' = [Job.make "a" PENDING])
  /\ (let s' := fst (create (insertion_order_engine never ["a"%string]) dto empty) in
      table s' = [] /\ queue s' = []).
Proof.
  intros dto t. split.
  - destruct (create_store_and_queue_agree
                (insertion_order_engine always ["a"%string]) dto empty)
      as [Hok _].
    destruct (Hok _ t eq_refl) as (Ht & _ & Hq & _).
    split; [exact Ht | exact Hq].
  - destruct (create_store_and_queue_agree
                (insertion_order_engine never ["a"%string]) dto empty)
      as (_ & _ & Hfail & Hthrows).
    destruct (Hthrows eq_refl) as (s' & e & Hrun).
    destruct (Hfail s' e Hrun) as (Ht & Hq & _).
    rewrite Hrun. split; [exact Ht | exact Hq].
Defined.

(** create() keeps the identifiers of the table distinct. *)
Lemma create_keeps_ids_unique (E : Engine) (dto : CreateTaskDto.t) (s : State) :
  NoDup (map id (table s)) ->
  NoDup (map id (table (fst (create E dto s)))).
Proof.
  intros Hnodup. run.
  destruct (existsb (has_id (uuid E (inserts s))) (table s)) eqn:Hdup; simpl.
  - exact Hnodup.
  - destruct (accepts E _ _); simpl; [| exact Hnodup].
    rewrite map_app. simpl.
    apply (Permutation_NoDup (Permutation_cons_append _ _)).
    constructor; [now apply has_id_absent | exact Hnodup].
Qed.

(** ** update *)

Lemma find_has_id (i : string) (l : list Task) (t : Task) :
  find (has_id i) l = Some t -> id t = i.
Proof.
  intros H. apply find_some in H. destruct H as [_ H].
  now apply String.eqb_eq.
Qed.

Lemma find_replace_row (i : string) (l : list Task) (t t' : Task) :
  find (has_id i) l = Some t -> id t' = i ->
  find (has_id i) (map (replace_row t') l) = Some t'.
Proof.
  intros Hfind Hid. induction l as [|r l IH]; simpl in *.
  - discriminate.
  - assert (Hrow : replace_row t' r = if has_id i r then t' else r)
      by (unfold replace_row; now rewrite Hid).
    rewrite Hrow. destruct (has_id i r) eqn:Hr.
    + unfold has_id. now rewrite Hid, String.eqb_refl.
    + rewrite Hr. now apply IH.
Qed.

Lemma TaskStatus_eqb_eq (a b : TaskStatus) : TaskStatus_eqb a b = true <-> a = b.
Proof. destruct a, b; simpl; split; intros H; congruence. Qed.

Lemma TaskStatus_eqb_neq (a b : TaskStatus) : TaskStatus_eqb a b = false <-> a <> b.
Proof. destruct a, b; simpl; split; intros H; congruence. Qed.

(** C3.  On an existing task, update() hands a job to the queue exactly when
    the status after applying the DTO differs from the status before: no job
    when the two are equal, one job carrying the task's id and its new status
    when they differ; when update() returns, these are the jobs the queue has
    gained.  The first revision decides in the same way. *)
Theorem update_publishes_iff_status_changes
  (E : Engine) (i : string) (dto : UpdateTaskDto.t) (s : State) (t : Task) :
  find (has_id i) (table s) = Some t ->
  let after := status (assign t dto) in
  (after = status t ->
   sent (fst (update E i dto s)) = sent s
   /\ queue (fst (update E i dto s)) = queue s
   /\ sent (fst (FirstRevision.update E i dto s)) = sent s)
  /\ (after <> status t ->
      sent (fst (update E i dto s)) = sent s ++ [Job.make i after]
      /\ sent (fst (FirstRevision.update E i dto s)) = sent s ++ [Job.make i after]
      /\ forall s' t', update E i dto s = (s', Returned t') ->
                       queue s' = queue s ++ [Job.make i after]).
Proof.
  intros Hfind after. pose proof (find_has_id _ _ _ Hfind) as Hid.
  unfold FirstRevision.update. run. rewrite Hfind. simpl.
  fold after. split; intros Hst.
  - rewrite Hst.
    assert (Hrefl : TaskStatus_eqb (status t) (status t) = true)
      by now apply TaskStatus_eqb_eq.
    rewrite Hrefl. simpl. auto.
  - assert (Hneq : TaskStatus_eqb (status t) after = false).
    { apply TaskStatus_eqb_neq. congruence. }
    rewrite Hneq. simpl. rewrite Hid.
    destruct (accepts E (List.length (sent s)) (Job.make i after)); simpl.
    + repeat split; auto. intros s' t' H. now inversion H.
    + repeat split; auto. intros s' t' H. discriminate.
Qed.

Lemma update_publishes_iff_status_changes_witness :
  let E := insertion_order_engine always [] in
  let s := stored [sample_task "a" PENDING 0] in
  sent (fst (update E "a" (UpdateTaskDto.make (Some "new title"%string) None None None None) s)) = []
  /\ sent (fst (update E "a" (UpdateTaskDto.make None None (Some COMPLETED) None None) s))
     = [Job.make "a" COMPLETED].
Proof.
  intros E s. split.
  - destruct (update_publishes_iff_status_changes
                E "a" (UpdateTaskDto.make (Some "new title"%string) None None None None)
                s (sample_task "a" PENDING 0) eq_refl) as [Hsame _].
    destruct (Hsame eq_refl) as [H _]. exact H.
  - destruct (update_publishes_iff_status_changes
                E "a" (UpdateTaskDto.make None None (Some COMPLETED) None None)
                s (sample_task "a" PENDING 0) eq_refl) as [_ Hdiff].
    assert (Hne : COMPLETED <> PENDING) by discriminate.
    destruct (Hdiff Hne) as [H _]. exact H.
Defined.

(** C2.  On an existing task whose status the DTO changes, when the queue
    refuses the status job update() throws and the committed table is what it
    was before the call: the task is found with its former status and all its
    former fields, and the queue has gained nothing. *)
Theorem update_rolled_back_when_publish_fails
  (E : Engine) (i : string) (dto : UpdateTaskDto.t) (s : State) (t : Task) :
  find (has_id i) (table s) = Some t ->
  status (assign t dto) <> status t ->
  accepts E (List.length (sent s)) (Job.make i (status (assign t dto))) = false ->
  exists s' e,
    update E i dto s = (s', Thrown e)
    /\ table s' = table s
    /\ find (has_id i) (table s') = Some t
    /\ queue s' = queue s
    /\ tx s' = None.
Proof.
  intros Hfind Hst Hacc. pose proof (find_has_id _ _ _ Hfind) as Hid.
  run. rewrite Hfind. simpl.
  assert (Hneq : TaskStatus_eqb (status t) (status (assign t dto)) = false).
  { apply TaskStatus_eqb_neq. intro Heq. apply Hst. symmetry. exact Heq. }
  simpl in Hneq. rewrite Hneq. simpl. rewrite Hid, Hacc. simpl.
  eexists. eexists. repeat split; auto.
Qed.

Lemma update_rolled_back_when_publish_fails_witness :
  let E := insertion_order_engine never [] in
  let s := stored [sample_task "a" PENDING 0] in
  exists s' e,
    update E "a" (UpdateTaskDto.make None None (Some COMPLETED) None None) s
    = (s', Thrown e)
    /\ table s' = [sample_task "a" PENDING 0].
Proof.
  intros E s.
  assert (Hne : status (assign (sample_task "a" PENDING 0)
                               (UpdateTaskDto.make None None (Some COMPLETED) None None))
                <> status (sample_task "a" PENDING 0)) by discriminate.
  destruct (update_rolled_back_when_publish_fails
              E "a" (UpdateTaskDto.make None None (Some COMPLETED) None None)
              s (sample_task "a" PENDING 0) eq_refl Hne eq_refl)
    as (s' & e & Hrun & Ht & _).
  exists s', e. split; [exact Hrun | exact Ht].
Defined.

Lemma assign_keeps_absent_fields (dto : UpdateTaskDto.t) (t : Task) :
  keeps_absent_fields dto t (assign t dto).
Proof.
  unfold keeps_absent_fields, assign; simpl.
  repeat split; intros H; now rewrite H.
Qed.

Lemma assign_takes_present_fields (dto : UpdateTaskDto.t) (t : Task) :
  takes_present_fields dto (assign t dto).
Proof.
  unfold takes_present_fields, assign; simpl.
  repeat split; intros v H; now rewrite H.
Qed.

Lemma assign_truthy_keeps_absent_fields (dto : UpdateTaskDto.t) (t : Task) :
  keeps_absent_fields dto t (FirstRevision.assign_truthy t dto).
Proof.
  unfold keeps_absent_fields, FirstRevision.assign_truthy; simpl.
  repeat split; intros H; now rewrite H.
Qed.

Lemma other_rows_kept (i : string) (t' : Task) (l : list Task) (r : Task) :
  id t' = i -> In r l -> id r <> i -> In r (map (replace_row t') l).
Proof.
  intros Hid Hin Hne. apply in_map_iff. exists r. split; [| exact Hin].
  unfold replace_row, has_id. rewrite Hid.
  destruct (String.eqb_spec (id r) i); [contradiction | reflexivity].
Qed.

(** C9.  When update() returns on an existing task, the returned task is the
    stored one; its id, creation date and owner are those it had, every field
    absent from the DTO has the value it had, every field present has the
    DTO's value, and the rows of the other tasks are still there.  The first
    revision keeps the absent fields as well. *)
Theorem update_partial_replace
  (E : Engine) (i : string) (dto : UpdateTaskDto.t) (s : State) (t : Task) :
  find (has_id i) (table s) = Some t ->
  (forall s' t',
      update E i dto s = (s', Returned t') ->
      keeps_absent_fields dto t t'
      /\ takes_present_fields dto t'
      /\ find (has_id i) (table s') = Some t'
      /\ forall r, In r (table s) -> id r <> i -> In r (table s'))
  /\ (forall s' t',
         FirstRevision.update E i dto s = (s', Returned t') ->
         keeps_absent_fields dto t t'
         /\ find (has_id i) (table s') = Some t').
Proof.
  intros Hfind. pose proof (find_has_id _ _ _ Hfind) as Hid. split.
  - intros s' t'. run. rewrite Hfind. simpl.
    destruct (negb _); simpl.
    + destruct (accepts E _ _); simpl; intros H; [| discriminate].
      inversion H; subst; simpl; clear H.
      repeat split;
        try apply assign_keeps_absent_fields;
        try apply assign_takes_present_fields.
      * now apply find_replace_row with (t := t).
      * intros r Hin Hne. now apply other_rows_kept with (i := id t).
    + intros H. inversion H; subst; simpl; clear H.
      repeat split;
        try apply assign_keeps_absent_fields;
        try apply assign_takes_present_fields.
      * now apply find_replace_row with (t := t).
      * intros r Hin Hne. now apply other_rows_kept with (i := id t).
  - intros s' t'. unfold FirstRevision.update. run. rewrite Hfind. simpl.
    destruct (negb _); simpl.
    + destruct (accepts E _ _); simpl; intros H;
        inversion H; subst; simpl; clear H;
        (split; [apply assign_truthy_keeps_absent_fields |
                 now apply find_replace_row with (t := t)]).
    + intros H. inversion H; subst; simpl; clear H.
      split; [apply assign_truthy_keeps_absent_fields |
              now apply find_replace_row with (t := t)].
Qed.

Lemma update_partial_replace_witness :
  let E := insertion_order_engine always [] in
  let s := stored [sample_task "a" PENDING 7] in
  let dto := UpdateTaskDto.make (Some "new title"%string) None None None None in
  let t' := snd (update E "a" dto s) in
  t' = Returned (mkTask "a" "new title" None PENDING MEDIUM None "u1" 7)
  /\ find (has_id "a") (table (fst (update E "a" dto s)))
     = Some (mkTask "a" "new title" None PENDING MEDIUM None "u1" 7).
Proof.
  intros E s dto t'. split; [reflexivity |].
  destruct (update_partial_replace E "a" dto s (sample_task "a" PENDING 7) eq_refl)
    as [Hnew _].
  destruct (Hnew _ _ eq_refl) as (_ & _ & Hstored & _).
  exact Hstored.
Defined.

(** The first revision of update() has no transaction and does not await the
    queue: when the queue refuses the job, the call still returns and the
    table keeps the new status. *)
Lemma first_revision_update_keeps_unannounced_status :
  let E := insertion_order_engine never [] in
  let s := stored [sample_task "a" PENDING 0] in
  let dto := UpdateTaskDto.make None None (Some COMPLETED) None None in
  FirstRevision.update E "a" dto s
  = (mkState [sample_task "a" COMPLETED 0] None [] [Job.make "a" COMPLETED] 1,
     Returned (sample_task "a" COMPLETED 0)).
Proof. reflexivity. Qed.

(** ** bulkUpdateStatus *)

Lemma mem_In (i : string) (ids : list string) : mem i ids = true <-> In i ids.
Proof.
  unfold mem. rewrite existsb_exists. split.
  - intros (x & Hin & Heq). apply String.eqb_eq in Heq. now subst.
  - intros Hin. exists i. split; [exact Hin | apply String.eqb_refl].
Qed.

Lemma publish_each_returned (E : Engine) (l : list Task) :
  forall s s' u,
    publish_each E l s = (s', Returned u) ->
    table s' = table s /\ tx s' = tx s /\ inserts s' = inserts s
    /\ queue s' = queue s ++ map job_of l
    /\ sent s' = sent s ++ map job_of l.
Proof.
  induction l as [|t l IH]; intros s s' u; simpl.
  - unfold ret. intros H. inversion H; subst.
    now rewrite !app_nil_r.
  - unfold bind, taskQueue_add.
    destruct (accepts E _ _); [| discriminate].
    intros H. apply IH in H. simpl in H.
    destruct H as (Ht & Hx & Hi & Hq & Hs).
    rewrite Hq, Hs, <- !app_assoc. auto.
Qed.

Lemma publish_each_thrown (E : Engine) (l : list Task) :
  forall s s' e,
    publish_each E l s = (s', Thrown e) ->
    table s' = table s /\ tx s' = tx s /\ inserts s' = inserts s.
Proof.
  induction l as [|t l IH]; intros s s' e; simpl.
  - unfold ret. discriminate.
  - unfold bind, taskQueue_add.
    destruct (accepts E _ _).
    + intros H. apply IH in H. exact H.
    + intros H. inversion H; subst. auto.
Qed.

Lemma publish_each_refused (E : Engine) (l : list Task) :
  forall s k job,
    nth_error (map job_of l) k = Some job ->
    accepts E (List.length (sent s) + k) job = false ->
    exists s' e, publish_each E l s = (s', Thrown e).
Proof.
  induction l as [|t l IH]; intros s k job Hnth Hacc.
  - destruct k; discriminate.
  - simpl. unfold bind, taskQueue_add.
    destruct (accepts E (List.length (sent s)) (Job.make (id t) (status t))) eqn:H0.
    + destruct k as [|k]; simpl in Hnth.
      * inversion Hnth; subst. rewrite Nat.add_0_r in Hacc.
        unfold job_of in Hacc. congruence.
      * eapply IH; [exact Hnth |]. simpl.
        rewrite length_app. simpl.
        now replace (List.length (sent s) + 1 + k)%nat
          with (List.length (sent s) + S k)%nat by lia.
    + eauto.
Qed.

Lemma publish_each_accepted (E : Engine) (l : list Task) :
  forall s,
    (forall k job, nth_error (map job_of l) k = Some job ->
                   accepts E (List.length (sent s) + k) job = true) ->
    exists s', publish_each E l s = (s', Returned tt).
Proof.
  induction l as [|t l IH]; intros s Hall.
  - simpl. unfold ret. eauto.
  - simpl. unfold bind, taskQueue_add.
    pose proof (Hall 0%nat (job_of t) eq_refl) as H0.
    rewrite Nat.add_0_r in H0. unfold job_of in H0. rewrite H0.
    apply IH. intros k job Hnth. simpl. rewrite length_app. simpl.
    replace (List.length (sent s) + 1 + k)%nat
      with (List.length (sent s) + S k)%nat by lia.
    now apply Hall.
Qed.

(** bulkUpdateStatus on a non-empty list of ids, step by step. *)
Lemma bulkUpdateStatus_run (E : Engine) (ids : list string) (st : TaskStatus)
  (s : State) :
  ids <> [] ->
  bulkUpdateStatus E ids st s =
  match publish_each E (bulk_updated E ids st (table s))
          (with_tx (Some (bulk_rows ids st (table s))) s) with
  | (s1, Returned _) =>
      (with_tx None (with_table (bulk_rows ids st (table s)) s1),
       Returned (bulk_updated E ids st (table s)))
  | (s1, Thrown e) => (with_tx None s1, Thrown e)
  end.
Proof.
  intros Hne. destruct ids as [|i ids]; [contradiction |].
  unfold bulkUpdateStatus, bulk_updated, bulk_rows.
  unfold bind at 1. unfold startTransaction.
  unfold try_finally, try_catch, release, ret.
  unfold bind at 1. unfold manager_update.
  unfold bind at 1. unfold manager_find_in.
  unfold write_view, view. simpl tx. cbv iota.
  unfold with_tx at 1 2 3. simpl tx. cbv iota.
  unfold bind at 1.
  match goal with
  | |- context [publish_each E ?l ?st0] =>
      destruct (publish_each E l st0) as [s1 [u|e]] eqn:Hrun
  end.
  - pose proof (publish_each_returned _ _ _ _ _ Hrun) as (_ & Hx & _).
    unfold with_tx in Hrun |- *. simpl in Hrun, Hx |- *. rewrite Hrun.
    unfold bind, commitTransaction, ret. rewrite Hx. reflexivity.
  - pose proof (publish_each_thrown _ _ _ _ _ Hrun) as (_ & Hx & _).
    unfold with_tx in Hrun |- *. simpl in Hrun, Hx |- *. rewrite Hrun.
    unfold bind, rollbackTransaction, throw. rewrite Hx. reflexivity.
Qed.

Lemma bulkUpdateStatus_empty (E : Engine) (st : TaskStatus) (s : State) :
  bulkUpdateStatus E [] st s
  = (with_tx None s,
     Thrown (TypeORMError "Empty criteria(s) are not allowed for the update method.")).
Proof. reflexivity. Qed.

(** C4.  Whenever bulkUpdateStatus throws, the committed table is the one
    from before the call and no transaction is left open; and it does throw
    as soon as the queue refuses the job of any one task of the batch (the
    k-th task read back, at the k-th call of taskQueue.add made by the
    batch). *)
Theorem bulkUpdateStatus_all_or_nothing
  (E : Engine) (ids : list string) (st : TaskStatus) (s : State) :
  (forall s' e,
      bulkUpdateStatus E ids st s = (s', Thrown e) ->
      table s' = table s /\ tx s' = None)
  /\ (forall k job,
         nth_error (map job_of (bulk_updated E ids st (table s))) k = Some job ->
         accepts E (List.length (sent s) + k) job = false ->
         exists s' e,
           bulkUpdateStatus E ids st s = (s', Thrown e) /\ table s' = table s).
Proof.
  destruct ids as [|i0 ids0] eqn:Hids.
  - rewrite bulkUpdateStatus_empty. split.
    + intros s' e H. inversion H; subst. auto.
    + intros k job _ _. eexists. eexists. split; reflexivity.
  - rewrite <- Hids. assert (Hne : ids <> []) by (rewrite Hids; discriminate).
    rewrite (bulkUpdateStatus_run E ids st s Hne). split.
    + intros s' e.
      destruct (publish_each E _ _) as [s1 [u|e1]] eqn:Hrun; [discriminate |].
      intros H. inversion H; subst.
      apply publish_each_thrown in Hrun. destruct Hrun as (Ht & _).
      simpl in *. auto.
    + intros k job Hnth Hacc.
      destruct (publish_each_refused E _
                  (with_tx (Some (bulk_rows ids st (table s))) s) k job Hnth Hacc)
        as (s1 & e & Hrun).
      rewrite Hrun. exists (with_tx None s1), e. split; [reflexivity |].
      apply publish_each_thrown in Hrun. destruct Hrun as (Ht & _).
      simpl in *. auto.
Qed.

Lemma bulkUpdateStatus_all_or_nothing_witness :
  let refuse_second : nat -> Job.t -> bool := fun n _ => negb (Nat.eqb n 1) in
  let E := insertion_order_engine refuse_second [] in
  let rows := [sample_task "a" PENDING 0; sample_task "b" IN_PROGRESS 1;
               sample_task "c" PENDING 2] in
  exists s' e,
    bulkUpdateStatus E ["a"; "b"; "c"]%string COMPLETED (stored rows) = (s', Thrown e)
    /\ table s' = rows.
Proof.
  intros refuse_second E rows.
  destruct (bulkUpdateStatus_all_or_nothing
              E ["a"; "b"; "c"]%string COMPLETED (stored rows)) as [_ Hany].
  exact (Hany 1%nat (Job.make "b" COMPLETED) eq_refl eq_refl).
Defined.

(** The jobs accepted before the refused one stay in the queue: the rollback
    covers the table only. *)
Lemma bulkUpdateStatus_rollback_keeps_earlier_jobs :
  let refuse_second : nat -> Job.t -> bool := fun n _ => negb (Nat.eqb n 1) in
  let E := insertion_order_engine refuse_second [] in
  let rows := [sample_task "a" PENDING 0; sample_task "b" IN_PROGRESS 1] in
  let s' := fst (bulkUpdateStatus E ["a"; "b"]%string COMPLETED (stored rows)) in
  table s' = rows /\ queue s' = [Job.make "a" COMPLETED].
Proof. split; reflexivity. Qed.

Lemma find_map_same_id (f : Task -> Task) (i : string) (l : list Task) :
  (forall r, id (f r) = id r) ->
  find (has_id i) (map f l) = option_map f (find (has_id i) l).
Proof.
  intros Hf. induction l as [|r l IH]; simpl.
  - reflexivity.
  - unfold has_id at 1. rewrite Hf. fold (has_id i r).
    destruct (has_id i r); [reflexivity | exact IH].
Qed.

Lemma count_occ_filter_ids (ids : list string) (i : string) (l : list string) :
  count_occ string_dec (filter (fun j => mem j ids) l) i
  = if mem i ids then count_occ string_dec l i else 0%nat.
Proof.
  induction l as [|j l IH]; simpl.
  - now destruct (mem i ids).
  - destruct (mem j ids) eqn:Hj; simpl.
    + destruct (string_dec j i) as [-> | Hne].
      * rewrite Hj in *. now rewrite IH.
      * exact IH.
    + destruct (string_dec j i) as [-> | Hne].
      * rewrite Hj in *. exact IH.
      * exact IH.
Qed.

Lemma ids_of_bulk_updated (E : Engine) (ids : list string) (st : TaskStatus)
  (rows : list Task) :
  Permutation (map id (bulk_updated E ids st rows))
              (filter (fun j => mem j ids) (map id rows)).
Proof.
  unfold bulk_updated.
  eapply Permutation_trans.
  - apply Permutation_map. apply row_order_perm.
  - unfold bulk_rows. induction rows as [|r rows IH]; simpl.
    + constructor.
    + destruct (mem (id r) ids) eqn:Hr; simpl; rewrite Hr; simpl.
      * now constructor.
      * exact IH.
Qed.

Lemma status_of_bulk_updated (E : Engine) (ids : list string) (st : TaskStatus)
  (rows : list Task) :
  Forall (fun t => status t = st) (bulk_updated E ids st rows).
Proof.
  apply Forall_forall. intros t Hin. unfold bulk_updated in Hin.
  apply (Permutation_in _ (row_order_perm E _)) in Hin.
  apply filter_In in Hin. destruct Hin as [Hin Hmem].
  unfold bulk_rows in Hin. apply in_map_iff in Hin.
  destruct Hin as (r & Heq & _). subst t.
  destruct (mem (id r) ids) eqn:Hr; [reflexivity |].
  rewrite Hr in Hmem. discriminate.
Qed.

(** C5.  bulkUpdateStatus(ids, st) returns whenever the list is not empty and
    the queue accepts the jobs of the batch, whether or not every listed id
    is stored.  When it returns, every stored task whose id is listed has
    status [st] and its other fields as before, every other stored task is
    untouched, and the queue has gained the jobs of the returned tasks: each
    carries [st], a listed id that is stored (ids being unique in the table)
    has exactly one of them whatever its former status, and an id that is
    not listed or not stored has none. *)
Theorem bulkUpdateStatus_sets_and_publishes
  (E : Engine) (ids : list string) (st : TaskStatus) (s : State) :
  NoDup (map id (table s)) ->
  (ids <> [] ->
   (forall k job,
       nth_error (map job_of (bulk_updated E ids st (table s))) k = Some job ->
       accepts E (List.length (sent s) + k) job = true) ->
   exists s',
     bulkUpdateStatus E ids st s
     = (s', Returned (bulk_updated E ids st (table s))))
  /\ (forall s' updated,
         bulkUpdateStatus E ids st s = (s', Returned updated) ->
         let published := map job_of updated in
         (forall i t, find (has_id i) (table s) = Some t ->
                      find (has_id i) (table s')
                      = Some (if mem i ids then set_status st t else t))
         /\ map id (table s') = map id (table s)
         /\ queue s' = queue s ++ published
         /\ sent s' = sent s ++ published
         /\ Forall (fun j => Job.status j = st) published
         /\ (forall i, In i ids -> In i (map id (table s)) ->
                       count_occ string_dec (map Job.taskId published) i = 1%nat)
         /\ (forall i, ~ (In i ids /\ In i (map id (table s))) ->
                       count_occ string_dec (map Job.taskId published) i = 0%nat)).
Proof.
  intros Hnodup. split.
  - intros Hne Hall. rewrite (bulkUpdateStatus_run E ids st s Hne).
    destruct (publish_each_accepted E (bulk_updated E ids st (table s))
                (with_tx (Some (bulk_rows ids st (table s))) s) Hall)
      as (s1 & Hpub).
    rewrite Hpub. eauto.
  - intros s' updated Hrun published.
    destruct ids as [|i0 ids0] eqn:Hids.
    + rewrite bulkUpdateStatus_empty in Hrun. discriminate.
    + rewrite <- Hids in *.
      assert (Hne : ids <> []) by (rewrite Hids; discriminate).
      rewrite (bulkUpdateStatus_run E ids st s Hne) in Hrun.
      destruct (publish_each E _ _) as [s1 [u|e1]] eqn:Hpub; [| discriminate].
      inversion Hrun; subst s' updated; clear Hrun.
      apply publish_each_returned in Hpub.
      destruct Hpub as (_ & _ & _ & Hq & Hs). simpl in Hq, Hs.
      assert (Hjobs : map Job.taskId published
                      = map id (bulk_updated E ids st (table s))).
      { unfold published. rewrite map_map. reflexivity. }
      assert (Hcount : forall i,
                 count_occ string_dec (map Job.taskId published) i
                 = if mem i ids then count_occ string_dec (map id (table s)) i
                   else 0%nat).
      { intros i. rewrite Hjobs.
        rewrite (proj1 (Permutation_count_occ string_dec _ _)
                   (ids_of_bulk_updated E ids st (table s)) i).
        apply count_occ_filter_ids. }
      simpl. repeat split.
      * intros i t Hfind. unfold bulk_rows.
        rewrite find_map_same_id by (intros r; now destruct (mem (id r) ids)).
        rewrite Hfind. simpl. now rewrite (find_has_id _ _ _ Hfind).
      * unfold bulk_rows. rewrite map_map. apply map_ext.
        intros r. now destruct (mem (id r) ids).
      * exact Hq.
      * exact Hs.
      * unfold published. apply Forall_forall. intros j Hj.
        apply in_map_iff in Hj. destruct Hj as (t & <- & Hin).
        pose proof (status_of_bulk_updated E ids st (table s)) as Hall.
        rewrite Forall_forall in Hall. now apply Hall.
      * intros i Hi Hin. rewrite Hcount.
        apply mem_In in Hi. rewrite Hi.
        pose proof (proj1 (NoDup_count_occ string_dec _) Hnodup i) as Hle.
        apply (count_occ_In string_dec) in Hin. lia.
      * intros i Hnot. rewrite Hcount.
        destruct (mem i ids) eqn:Hi; [| reflexivity].
        apply mem_In in Hi.
        apply (count_occ_not_In string_dec). tauto.
Qed.

Lemma bulkUpdateStatus_sets_and_publishes_witness :
  let E := insertion_order_engine always [] in
  let rows := [sample_task "a" PENDING 0; sample_task "c" COMPLETED 1] in
  let s' := fst (bulkUpdateStatus E ["a"; "b"; "c"]%string COMPLETED (stored rows)) in
  table s' = [sample_task "a" COMPLETED 0; sample_task "c" COMPLETED 1]
  /\ queue s' = [Job.make "a" COMPLETED; Job.make "c" COMPLETED]
  /\ count_occ string_dec (map Job.taskId (queue s')) "b"%string = 0%nat.
Proof.
  intros E rows s'.
  assert (Hnodup : NoDup (map id (table (stored rows)))).
  { simpl. repeat constructor; simpl; intuition discriminate. }
  destruct (bulkUpdateStatus_sets_and_publishes
              E ["a"; "b"; "c"]%string COMPLETED (stored rows) Hnodup)
    as [Hreturns Hafter].
  assert (Hne : ["a"; "b"; "c"]%string <> []) by discriminate.
  destruct (Hreturns Hne (fun _ _ _ => eq_refl)) as (s1 & Hrun).
  destruct (Hafter _ _ Hrun) as (_ & _ & Hq & _ & _ & _ & Hnone).
  unfold s'. rewrite Hrun. simpl fst.
  assert (Htable : table s1
                   = [sample_task "a" COMPLETED 0; sample_task "c" COMPLETED 1]).
  { change s1 with (fst (s1, Returned (bulk_updated E ["a"; "b"; "c"]%string
                                                    COMPLETED (table (stored rows))))).
    rewrite <- Hrun. reflexivity. }
  split; [exact Htable |]. split; [exact Hq |].
  rewrite Hq. apply Hnone. simpl. intuition discriminate.
Defined.

(** ** Pagination *)

Lemma firstn_plus (A : Type) (a b : nat) (l : list A) :
  firstn (a + b) l = firstn a l ++ firstn b (skipn a l).
Proof.
  revert l. induction a as [|a IH]; intros l; simpl.
  - reflexivity.
  - destruct l as [|x l]; simpl.
    + now rewrite firstn_nil.
    + now rewrite IH.
Qed.

Lemma pages_concat (A : Type) (n m : nat) (l : list A) :
  flat_map (fun k => firstn n (skipn ((k - 1) * n) l)) (seq 1 m)
  = firstn (m * n) l.
Proof.
  induction m as [|m IH].
  - reflexivity.
  - rewrite seq_S, flat_map_app, IH. simpl flat_map. rewrite app_nil_r.
    rewrite Nat.sub_0_r.
    replace (S m * n)%nat with (m * n + n)%nat by lia.
    now rewrite firstn_plus.
Qed.

Lemma order_by_id_permutation (l : list Task) : Permutation (order_by_id l) l.
Proof.
  induction l as [|t l IH]; simpl.
  - constructor.
  - assert (Hins : forall r, Permutation (insert_by_id t r) (t :: r)).
    { induction r as [|a r IHr]; simpl.
      - apply Permutation_refl.
      - destruct (String.leb (id t) (id a)).
        + apply Permutation_refl.
        + eapply Permutation_trans; [apply perm_skip, IHr | apply perm_swap]. }
    eapply Permutation_trans; [apply Hins | now apply perm_skip].
Qed.




Lemma select_page (E : Engine) (p : Task -> bool) (s : State) (k n : nat) :
  (1 <= k)%nat ->
  (1 <= n)%nat ->
  Z.of_nat (k * n) <= BIGINT_MAX ->
  select E p ((Z.of_nat k - 1) * Z.of_nat n) (Z.of_nat n) s
  = (s, Returned (row_order E (firstn n (skipn ((k - 1) * n)
                                               (order_by_id (filter p (table s))))))).
Proof.
  intros Hk Hn Hmax. unfold select, paginate.
  replace ((Z.of_nat k - 1) * Z.of_nat n) with (Z.of_nat ((k - 1) * n))
    by (rewrite Nat2Z.inj_mul, Nat2Z.inj_sub by lia; reflexivity).
  assert (Hskip : ((k - 1) * n <= k * n)%nat) by (apply Nat.mul_le_mono_r; lia).
  assert (Htake : (n <= k * n)%nat) by (destruct k; simpl; lia).
  assert (H0 : (Z.of_nat n =? 0) = false) by (apply Z.eqb_neq; lia).
  assert (H1 : (Z.of_nat ((k - 1) * n) <? 0) = false)
    by (apply Z.ltb_ge, Nat2Z.is_nonneg).
  assert (H2 : (Z.of_nat n <? 0) = false) by (apply Z.ltb_ge; lia).
  assert (H3 : (BIGINT_MAX <? Z.of_nat ((k - 1) * n)) = false)
    by (apply Z.ltb_ge; lia).
  assert (H4 : (BIGINT_MAX <? Z.of_nat n) = false) by (apply Z.ltb_ge; lia).
  rewrite H0, andb_false_r, H1, H2, H3, H4, !Nat2Z.id. reflexivity.
Qed.

Lemma flat_map_pointwise (A : Type) (f g : nat -> list A) (ks : list nat) :
  (forall k, In k ks -> Permutation (f k) (g k)) ->
  Permutation (flat_map f ks) (flat_map g ks).
Proof.
  induction ks as [|k ks IH]; simpl; intros H.
  - constructor.
  - apply Permutation_app; [apply H; now left | apply IH; intros; apply H; now right].
Qed.

Lemma listing_select (E : Engine) (p : Task -> bool) (s : State) (n m : nat) :
  (1 <= n)%nat ->
  Z.of_nat (m * n) <= BIGINT_MAX ->
  Permutation
    (listing (fun page => select E p ((page - 1) * Z.of_nat n) (Z.of_nat n)) s m)
    (firstn (m * n) (order_by_id (filter p (table s)))).
Proof.
  intros Hn Hmax. unfold listing. rewrite <- pages_concat.
  apply flat_map_pointwise. intros k Hk. apply in_seq in Hk.
  assert (Hkm : (k * n <= m * n)%nat) by (apply Nat.mul_le_mono_r; lia).
  rewrite select_page by lia. unfold page_rows. simpl.
  apply row_order_perm.
Qed.

Lemma findAll_select (E : Engine) (userId : string) (page pageSize : Z)
  (st : option TaskStatus) (pr : option TaskPriority) :
  findAll E userId page pageSize
          (query_param TaskStatus_label st) (query_param TaskPriority_label pr)
  = select E (where_matches userId st pr) ((page - 1) * pageSize) pageSize.
Proof. destruct st as [[]|], pr as [[]|]; reflexivity. Qed.

Lemma NoDup_ids_firstn (n : nat) (l : list Task) :
  NoDup (map id l) -> NoDup (map id (firstn n l)).
Proof.
  intros H. rewrite <- (firstn_skipn n l), map_app in H.
  now apply NoDup_app_remove_r in H.
Qed.

Lemma NoDup_ids_filter (p : Task -> bool) (l : list Task) :
  NoDup (map id l) -> NoDup (map id (filter p l)).
Proof.
  induction l as [|r l IH]; simpl; intros H.
  - constructor.
  - inversion H as [|x l0 Hnotin Hrest]; subst.
    destruct (p r); simpl; [| now apply IH].
    constructor; [| now apply IH].
    intros Hin. apply Hnotin.
    apply in_map_iff in Hin. destruct Hin as (t & Heq & Hin).
    apply filter_In in Hin. apply in_map_iff. exists t. tauto.
Qed.

(** What the pages of a find with skip (page-1)*n and take n add up to. *)
Lemma select_pages_partition (E : Engine) (p : Task -> bool) (s : State)
  (n m : nat) :
  (1 <= n)%nat ->
  Z.of_nat (m * n) <= BIGINT_MAX ->
  let rows := listing (fun page => select E p ((page - 1) * Z.of_nat n) (Z.of_nat n)) s m in
  Permutation rows (firstn (m * n) (order_by_id (filter p (table s))))
  /\ (NoDup (map id (table s)) -> NoDup (map id rows))
  /\ ((List.length (filter p (table s)) <= m * n)%nat ->
      Permutation rows (filter p (table s))).
Proof.
  intros Hn Hmax rows.
  pose proof (listing_select E p s n m Hn Hmax) as Hrows. fold rows in Hrows.
  repeat split.
  - exact Hrows.
  - intros Hnodup.
    apply (Permutation_NoDup (Permutation_map id (Permutation_sym Hrows))).
    apply NoDup_ids_firstn.
    apply (Permutation_NoDup
             (Permutation_map id (Permutation_sym (order_by_id_permutation _)))).
    now apply NoDup_ids_filter.
  - intros Hlen. eapply Permutation_trans; [exact Hrows |].
    rewrite firstn_all2.
    + apply order_by_id_permutation.
    + now rewrite (Permutation_length (order_by_id_permutation _)).
Qed.




(** The revision built on the query builder pages in the same way, whenever
    the date literals of the filter are readable. *)
Lemma query_builder_pages_partition
  (E : Engine) (userId : string) (filter_ : TaskFilterDto.t)
  (fromDate toDate : option Z) (s : State) (n m : nat) :
  (1 <= n)%nat ->
  Z.of_nat (m * n) <= BIGINT_MAX ->
  QueryBuilder.date_param E (TaskFilterDto.fromDate filter_) = Some fromDate ->
  QueryBuilder.date_param E (TaskFilterDto.toDate filter_) = Some toDate ->
  let matching :=
    filter (QueryBuilder.andWhere E userId filter_ fromDate toDate) (table s) in
  let rows :=
    listing (fun page => QueryBuilder.findAll E userId page (Z.of_nat n) filter_) s m in
  Permutation rows (firstn (m * n) (order_by_id matching))
  /\ (NoDup (map id (table s)) -> NoDup (map id rows))
  /\ ((List.length matching <= m * n)%nat -> Permutation rows matching).
Proof.
  intros Hn Hmax Hfrom Hto matching rows.
  unfold rows, QueryBuilder.findAll. rewrite Hfrom, Hto.
  now apply select_pages_partition.
Qed.

(** ** Deleting *)

(** C7 on the code.  The second DELETE /tasks/:id of the same id: the task is
    gone, findOne rejects with NotFound and the first revision of remove()
    throws it, but the handler does not await findOne, tests the promise
    object instead of the task, and answers 200 again. *)
Lemma controller_remove_twice_reports_success :
  let s := stored [sample_task "a" PENDING 0] in
  let s1 := fst (TasksController.remove "a" s) in
  table s1 = []
  /\ snd (findOne "a" s1) = Thrown (NotFoundException "Task not found")
  /\ snd (FirstRevision.remove "a" s1) = Thrown (NotFoundException "Task not found")
  /\ http_status (NotFoundException "Task not found") = 404
  /\ TasksController.remove "a" s1
     = (s1, Returned (DeleteResponse.make 200 "Task successfully deleted")).
Proof. repeat split. Qed.

(** The handler answers 200 for every id, stored or not. *)
Lemma controller_remove_always_succeeds (i : string) (s : State) :
  snd (TasksController.remove i s)
  = Returned (DeleteResponse.make OK "Task successfully deleted")
  /\ ~ In i (map id (table (fst (TasksController.remove i s)))).
Proof.
  unfold TasksController.remove, falsy_promise. run. unfold not_awaited. run.
  destruct (find (has_id i) (table s)); simpl; (split; [reflexivity |]);
    intros Hin; apply in_map_iff in Hin; destruct Hin as (r & Heq & Hin);
    apply filter_In in Hin; destruct Hin as [_ Hneg];
    unfold has_id in Hneg; rewrite Heq, String.eqb_refl in Hneg; discriminate.
Qed.

(** ** The batch endpoint *)

(** C8 on the code.  An action that is neither "complete" nor "delete" makes
    batchProcess throw, with the message naming the action and with the state
    untouched; but the exception thrown inside the try block is caught by the
    handler's own catch and thrown again with status 500, not 400. *)
Theorem batchProcess_unknown_action_is_500
  (E : Engine) (ids : list string) (action : string) (s : State) :
  action <> "complete"%string ->
  action <> "delete"%string ->
  exists e,
    TasksController.batchProcess E (BatchRequest.make ids action) s = (s, Thrown e)
    /\ e = HttpException ("Unknown action: " ++ action)%string INTERNAL_SERVER_ERROR
    /\ http_status e = 500
    /\ http_status e <> BAD_REQUEST.
Proof.
  intros Hc Hd. unfold TasksController.batchProcess. simpl.
  apply String.eqb_neq in Hc. apply String.eqb_neq in Hd.
  unfold try_catch, bind, throw. rewrite Hc, Hd.
  eexists. repeat split. discriminate.
Qed.

Lemma batchProcess_unknown_action_is_500_witness :
  let r := TasksController.batchProcess
             (insertion_order_engine always [])
             (BatchRequest.make ["a"%string] "archive")
             (stored [sample_task "a" PENDING 0]) in
  r = (stored [sample_task "a" PENDING 0],
       Thrown (HttpException "Unknown action: archive" 500)).
Proof.
  assert (Hc : "archive"%string <> "complete"%string) by discriminate.
  assert (Hd : "archive"%string <> "delete"%string) by discriminate.
  destruct (batchProcess_unknown_action_is_500
              (insertion_order_engine always []) ["a"%string] "archive"
              (stored [sample_task "a" PENDING 0]) Hc Hd)
    as (e & Hrun & He & _).
  simpl. rewrite Hrun, He. reflexivity.
Defined.

Lemma bulkDelete_run (ids : list string) (s : State) :
  ids <> [] ->
  bulkDelete ids s
  = (with_tx None (with_table (filter (fun r => negb (mem (id r) ids)) (table s)) s),
     Returned tt).
Proof.
  intros Hne. destruct ids as [|i ids]; [contradiction | reflexivity].
Qed.

Lemma length_bulk_updated (E : Engine) (ids : list string) (st : TaskStatus)
  (rows : list Task) :
  List.length (bulk_updated E ids st rows)
  = List.length (filter (fun r => mem (id r) ids) rows).
Proof.
  rewrite <- (length_map id (bulk_updated E ids st rows)).
  rewrite (Permutation_length (ids_of_bulk_updated E ids st rows)).
  induction rows as [|r rows IH]; simpl.
  - reflexivity.
  - destruct (mem (id r) ids); simpl; now rewrite IH.
Qed.

(** C10.  Whenever the batch endpoint answers a "delete" request, [affected]
    is 0 and the listed tasks are gone from the table, however many they
    were; it does answer whenever the list of ids is not empty.  A "complete"
    request that is answered reports the number of stored tasks whose id is
    listed. *)
Theorem batchProcess_delete_reports_zero
  (E : Engine) (ids : list string) (s : State) :
  (forall s' r,
      TasksController.batchProcess E (BatchRequest.make ids "delete") s
      = (s', Returned r) ->
      BatchResponse.affected r = 0%nat
      /\ table s' = filter (fun t => negb (mem (id t) ids)) (table s))
  /\ (ids <> [] ->
      exists s',
        TasksController.batchProcess E (BatchRequest.make ids "delete") s
        = (s', Returned (BatchResponse.make true 0 ids)))
  /\ (forall s' r,
         TasksController.batchProcess E (BatchRequest.make ids "complete") s
         = (s', Returned r) ->
         BatchResponse.affected r
         = List.length (filter (fun t => mem (id t) ids) (table s))).
Proof.
  unfold TasksController.batchProcess. simpl. repeat split.
  - destruct ids; [discriminate |].
    unfold try_catch, bind in H. rewrite bulkDelete_run in H by discriminate.
    unfold ret in H. now inversion H.
  - destruct ids; [discriminate |].
    unfold try_catch, bind in H. rewrite bulkDelete_run in H by discriminate.
    unfold ret in H. now inversion H.
  - intros Hne. unfold try_catch, bind. rewrite bulkDelete_run by exact Hne.
    unfold ret. eauto.
  - intros s' r. unfold try_catch, bind.
    destruct ids as [|i0 ids0] eqn:Hids; [discriminate |].
    rewrite <- Hids. rewrite bulkUpdateStatus_run by (rewrite Hids; discriminate).
    destruct (publish_each E _ _) as [s1 [u|e]]; [| discriminate].
    unfold ret, throw. intros H. inversion H; subst r; simpl.
    apply length_bulk_updated.
Qed.

Lemma batchProcess_delete_reports_zero_witness :
  let E := insertion_order_engine always [] in
  let s := stored [sample_task "a" PENDING 0; sample_task "b" PENDING 1;
                   sample_task "c" PENDING 2] in
  let r := TasksController.batchProcess E (BatchRequest.make ["a"; "b"]%string "delete") s in
  table (fst r) = [sample_task "c" PENDING 2]
  /\ snd r = Returned (BatchResponse.make true 0 ["a"; "b"]%string).
Proof.
  intros E s r.
  destruct (batchProcess_delete_reports_zero E ["a"; "b"]%string s)
    as (Hzero & Hanswers & _).
  assert (Hne : ["a"; "b"]%string <> []) by discriminate.
  destruct (Hanswers Hne) as (s' & Hrun).
  destruct (Hzero _ _ Hrun) as [_ Htable].
  unfold r. rewrite Hrun. split; [exact Htable | reflexivity].
Defined.

(** * Further properties of the service and of the handlers *)

(** ** Looking tasks up *)

Lemma create_returned (E : Engine) (dto : CreateTaskDto.t) (s s' : State) (t : Task) :
  create E dto s = (s', Returned t) ->
  table s' = table s ++ [t]
  /\ ~ In (id t) (map id (table s))
  /\ status t = created_status dto
  /\ priority t = match CreateTaskDto.priority dto with
                  | Some p => p
                  | None => default_priority
                  end.
Proof.
  unfold created_status. run.
  destruct (existsb (has_id (uuid E (inserts s))) (table s)) eqn:Hdup; simpl.
  - discriminate.
  - destruct (accepts E _ _); simpl; [| discriminate].
    intros H. inversion H; subst; simpl.
    repeat split. now apply has_id_absent.
Qed.

Lemma find_absent (i : string) (l : list Task) :
  ~ In i (map id l) -> find (has_id i) l = None.
Proof.
  intros Hnot. destruct (find (has_id i) l) as [t|] eqn:Hfind; [| reflexivity].
  exfalso. apply Hnot. apply in_map_iff. exists t.
  split; [now apply find_has_id with (l := l) | now apply find_some in Hfind].
Qed.

Lemma find_appended (i : string) (l : list Task) (t : Task) :
  ~ In i (map id l) -> id t = i -> find (has_id i) (l ++ [t]) = Some t.
Proof.
  intros Hnot Hid. induction l as [|r l IH]; simpl in *.
  - unfold has_id. now rewrite Hid, String.eqb_refl.
  - destruct (has_id i r) eqn:Hr.
    + exfalso. apply Hnot. left. now apply String.eqb_eq.
    + apply IH. tauto.
Qed.

(** X1.  A task that create() has returned is found again under its
    identifier, by the service and by the GET handler. *)
Theorem create_then_findOne
  (E : Engine) (dto : CreateTaskDto.t) (s s' : State) (t : Task) :
  Controller.create E dto s = (s', Returned t) ->
  findOne (id t) s' = (s', Returned t)
  /\ Controller.findOne (id t) s' = (s', Returned t).
Proof.
  unfold Controller.create. intros Hrun.
  destruct (create_returned _ _ _ _ _ Hrun) as (Ht & Hfresh & _).
  assert (Hfind : find (has_id (id t)) (table s') = Some t).
  { rewrite Ht. now apply find_appended. }
  unfold Controller.findOne, falsy_task. run. rewrite Hfind. simpl. auto.
Qed.

Lemma create_then_findOne_witness :
  let E := insertion_order_engine always ["a"%string] in
  let t := mkTask "a" "write report" None PENDING MEDIUM None "u1" 0 in
  snd (Controller.findOne "a" (fst (Controller.create E (sample_dto "write report" "u1") empty)))
  = Returned t.
Proof.
  intros E t.
  destruct (create_then_findOne E (sample_dto "write report" "u1") empty
              (fst (Controller.create E (sample_dto "write report" "u1") empty)) t
              eq_refl) as [_ H].
  simpl id in H. rewrite H. reflexivity.
Defined.

Lemma find_after_delete (i j : string) (l : list Task) :
  find (has_id j) (filter (fun r => negb (has_id i r)) l)
  = if (j =? i)%string then None else find (has_id j) l.
Proof.
  induction l as [|r l IH]; simpl.
  - now destruct (j =? i)%string.
  - destruct (has_id i r) eqn:Hi; simpl.
    + rewrite IH. destruct (String.eqb_spec j i) as [-> | Hne]; [reflexivity |].
      destruct (has_id j r) eqn:Hj; [| reflexivity].
      exfalso. apply Hne. unfold has_id in Hi, Hj.
      apply String.eqb_eq in Hi. apply String.eqb_eq in Hj. congruence.
    + destruct (has_id j r) eqn:Hj.
      * destruct (String.eqb_spec j i) as [-> | Hne]; [congruence | reflexivity].
      * exact IH.
Qed.

Lemma filter_twice (A : Type) (p : A -> bool) (l : list A) :
  filter p (filter p l) = filter p l.
Proof.
  induction l as [|a l IH]; simpl; [reflexivity |].
  destruct (p a) eqn:Ha; simpl; [rewrite Ha; now f_equal | exact IH].
Qed.

(** X2.  remove(id) never throws, whether or not the task is stored.
    Afterwards findOne(id) throws NotFoundException, every other id is
    looked up as before, the queue has been handed nothing, and a second
    remove(id) changes nothing more. *)
Theorem remove_then_findOne (i : string) (s : State) :
  let s' := fst (remove i s) in
  snd (remove i s) = Returned tt
  /\ findOne i s' = (s', Thrown (NotFoundException "Task not found"))
  /\ (forall j, j <> i -> findOne j s' = (s', snd (findOne j s)))
  /\ queue s' = queue s
  /\ sent s' = sent s
  /\ remove i s' = (s', Returned tt).
Proof.
  run. repeat split.
  - rewrite find_after_delete, String.eqb_refl. reflexivity.
  - intros j Hne. rewrite find_after_delete.
    apply String.eqb_neq in Hne. rewrite Hne.
    now destruct (find (has_id j) (table s)).
  - now rewrite filter_twice.
Qed.

(** ** update on the edges *)

Lemma update_missing (E : Engine) (i : string) (dto : UpdateTaskDto.t) (s : State) :
  find (has_id i) (table s) = None ->
  update E i dto s = (with_tx None s, Thrown (NotFoundException "Task not found")).
Proof. intros Hfind. run. now rewrite Hfind. Qed.

(** X3.  update() on an id that is not stored throws NotFoundException,
    which the framework answers with 404, from inside its transaction: the
    table and the queue are untouched, no job has been handed to the queue,
    no identifier has been generated and no transaction is left open. *)
Theorem update_on_missing_id
  (E : Engine) (i : string) (dto : UpdateTaskDto.t) (s : State) :
  find (has_id i) (table s) = None ->
  exists s' e,
    update E i dto s = (s', Thrown e)
    /\ e = NotFoundException "Task not found"
    /\ http_status e = 404
    /\ table s' = table s /\ queue s' = queue s /\ sent s' = sent s
    /\ inserts s' = inserts s
    /\ tx s' = None.
Proof.
  intros Hfind. exists (with_tx None s), (NotFoundException "Task not found").
  rewrite update_missing by exact Hfind.
  repeat split.
Qed.

Lemma update_on_missing_id_witness :
  let E := insertion_order_engine always [] in
  let s := stored [sample_task "a" PENDING 0] in
  let dto := UpdateTaskDto.make None None (Some COMPLETED) None None in
  exists s',
    update E "b" dto s = (s', Thrown (NotFoundException "Task not found"))
    /\ table s' = [sample_task "a" PENDING 0] /\ sent s' = [].
Proof.
  intros E s dto.
  destruct (update_on_missing_id E "b" dto s eq_refl)
    as (s' & e & Hrun & He & _ & Ht & _ & Hs & _).
  exists s'. rewrite Hrun, He. repeat split; assumption.
Defined.

Lemma map_id_replace_row (t' : Task) (l : list Task) :
  map id (map (replace_row t') l) = map id l.
Proof.
  rewrite map_map. apply map_ext. intros r. unfold replace_row, has_id.
  destruct (String.eqb_spec (id r) (id t')); congruence.
Qed.

Lemma update_row_ids (E : Engine) (i : string) (dto : UpdateTaskDto.t) (s : State) :
  map id (table (fst (update E i dto s))) = map id (table s)
  /\ inserts (fst (update E i dto s)) = inserts s.
Proof.
  run. destruct (find (has_id i) (table s)) as [t|]; simpl; [| auto].
  destruct (negb _); simpl.
  - destruct (accepts E _ _); simpl; [| auto].
    split; [apply map_id_replace_row | reflexivity].
  - split; [apply map_id_replace_row | reflexivity].
Qed.

(** X4.  Whatever its outcome, update() neither adds nor removes a row and
    generates no identifier: the identifiers of the table, in order, are the
    same before and after. *)
Theorem update_keeps_row_ids
  (E : Engine) (i : string) (dto : UpdateTaskDto.t) (s : State) :
  map id (table (fst (update E i dto s))) = map id (table s)
  /\ inserts (fst (update E i dto s)) = inserts s.
Proof.
  destruct (find (has_id i) (table s)) as [t|] eqn:Hfind.
  - apply update_row_ids.
  - rewrite update_missing by exact Hfind. split; reflexivity.
Qed.

Lemma same_id_same_row (l : list Task) (a b : Task) :
  NoDup (map id l) -> In a l -> In b l -> id a = id b -> a = b.
Proof.
  induction l as [|r l IH]; simpl; intros Hnodup Ha Hb Hid; [contradiction |].
  inversion Hnodup as [|x l0 Hnotin Hrest]; subst.
  destruct Ha as [-> | Ha], Hb as [-> | Hb].
  - reflexivity.
  - exfalso. apply Hnotin. rewrite Hid. now apply in_map.
  - exfalso. apply Hnotin. rewrite <- Hid. now apply in_map.
  - now apply IH.
Qed.

Lemma replace_stored_row (l : list Task) (t : Task) :
  NoDup (map id l) -> In t l -> map (replace_row t) l = l.
Proof.
  intros Hnodup Hin. rewrite <- (map_id l) at 2.
  apply map_ext_in. intros r Hr. unfold replace_row, has_id.
  destruct (String.eqb_spec (id r) (id t)) as [Heq | _]; [| reflexivity].
  symmetry. now apply same_id_same_row with (l := l).
Qed.

Lemma assign_empty_update (t : Task) : assign t empty_update = t.
Proof. now destruct t. Qed.

(** X5.  update() with a DTO that carries no field, on a stored task (ids
    being unique in the table): it returns the task as it was, the table is
    the same, and the queue is handed nothing. *)
Theorem update_with_empty_dto
  (E : Engine) (i : string) (s : State) (t : Task) :
  NoDup (map id (table s)) ->
  find (has_id i) (table s) = Some t ->
  exists s',
    update E i empty_update s = (s', Returned t)
    /\ table s' = table s /\ queue s' = queue s /\ sent s' = sent s.
Proof.
  intros Hnodup Hfind.
  assert (Hin : In t (table s)) by now apply find_some in Hfind.
  assert (Hsame : TaskStatus_eqb (status t) (status t) = true)
    by now apply TaskStatus_eqb_eq.
  run. rewrite Hfind. simpl.
  change (mkTask (id t) (title t) (description t) (status t) (priority t)
                 (dueDate t) (userId t) (createdAt t))
    with (assign t empty_update).
  rewrite assign_empty_update, Hsame. simpl.
  rewrite replace_stored_row by assumption.
  eexists. repeat split.
Qed.

Lemma update_with_empty_dto_witness :
  let E := insertion_order_engine never [] in
  let s := stored [sample_task "a" PENDING 0; sample_task "b" COMPLETED 1] in
  exists s', update E "b" empty_update s = (s', Returned (sample_task "b" COMPLETED 1))
             /\ table s' = table s.
Proof.
  intros E s.
  assert (Hnodup : NoDup (map id (table s))).
  { simpl. repeat constructor; simpl; intuition discriminate. }
  destruct (update_with_empty_dto E "b" s (sample_task "b" COMPLETED 1) Hnodup eq_refl)
    as (s' & Hrun & Ht & _).
  exists s'. split; [exact Hrun | exact Ht].
Defined.

(** ** Invariants of the mutating methods *)

Lemma map_id_bulk_rows (ids : list string) (st : TaskStatus) (l : list Task) :
  map id (bulk_rows ids st l) = map id l.
Proof.
  unfold bulk_rows. rewrite map_map. apply map_ext.
  intros r. now destruct (mem (id r) ids).
Qed.

Lemma bulkUpdateStatus_thrown (E : Engine) (ids : list string) (st : TaskStatus)
  (s s' : State) (e : Exception) :
  bulkUpdateStatus E ids st s = (s', Thrown e) ->
  table s' = table s /\ tx s' = None.
Proof.
  destruct ids as [|i0 ids0] eqn:Hids.
  - rewrite bulkUpdateStatus_empty. intros H. inversion H; subst. auto.
  - rewrite <- Hids. rewrite bulkUpdateStatus_run by (rewrite Hids; discriminate).
    destruct (publish_each E _ _) as [s1 [u|e1]] eqn:Hrun; [discriminate |].
    intros H. inversion H; subst.
    apply publish_each_thrown in Hrun. destruct Hrun as (Ht & _).
    simpl in *. auto.
Qed.

Lemma bulkUpdateStatus_table (E : Engine) (ids : list string) (st : TaskStatus)
  (s : State) :
  let s' := fst (bulkUpdateStatus E ids st s) in
  (table s' = table s \/ table s' = bulk_rows ids st (table s)) /\ tx s' = None.
Proof.
  destruct ids as [|i0 ids0] eqn:Hids.
  - rewrite bulkUpdateStatus_empty. simpl. auto.
  - rewrite <- Hids. rewrite bulkUpdateStatus_run by (rewrite Hids; discriminate).
    destruct (publish_each E _ _) as [s1 [u|e1]] eqn:Hrun; simpl.
    + auto.
    + apply publish_each_thrown in Hrun. destruct Hrun as (Ht & _).
      simpl in *. auto.
Qed.

Lemma bulkDelete_empty (s : State) :
  bulkDelete [] s
  = (with_tx None s,
     Thrown (TypeORMError "Empty criteria(s) are not allowed for the delete method.")).
Proof. reflexivity. Qed.

Lemma applyStatusUpdateFromQueue_table (i status : string) (s : State) :
  map id (table (fst (applyStatusUpdateFromQueue i status s))) = map id (table s).
Proof.
  unfold applyStatusUpdateFromQueue. run.
  destruct (find (has_id i) (table s)) as [t|]; simpl; [| reflexivity].
  destruct (TaskStatus_of_string status); simpl; [| reflexivity].
  apply map_id_replace_row.
Qed.

(** X6.  Each method that writes keeps the identifiers of the table distinct,
    whatever its arguments and whatever its outcome. *)
Theorem unique_ids_preserved (E : Engine) (s : State) :
  NoDup (map id (table s)) ->
  (forall dto, NoDup (map id (table (fst (create E dto s)))))
  /\ (forall i dto, NoDup (map id (table (fst (update E i dto s)))))
  /\ (forall ids st, NoDup (map id (table (fst (bulkUpdateStatus E ids st s)))))
  /\ (forall i, NoDup (map id (table (fst (remove i s)))))
  /\ (forall ids, NoDup (map id (table (fst (bulkDelete ids s)))))
  /\ (forall i status,
         NoDup (map id (table (fst (applyStatusUpdateFromQueue i status s))))).
Proof.
  intros Hnodup. repeat split.
  - intros dto. now apply create_keeps_ids_unique.
  - intros i dto. now rewrite (proj1 (update_row_ids E i dto s)).
  - intros ids st.
    destruct (bulkUpdateStatus_table E ids st s) as [[Ht | Ht] _]; rewrite Ht.
    + exact Hnodup.
    + now rewrite map_id_bulk_rows.
  - intros i. unfold remove, tasksRepository_delete. simpl.
    now apply NoDup_ids_filter.
  - intros ids. destruct ids as [|i0 ids0] eqn:Hids.
    + rewrite bulkDelete_empty. exact Hnodup.
    + rewrite bulkDelete_run by discriminate. simpl.
      now apply NoDup_ids_filter.
  - intros i status. now rewrite applyStatusUpdateFromQueue_table.
Qed.

Lemma unique_ids_preserved_witness :
  let E := insertion_order_engine always ["a"; "b"; "c"]%string in
  let s := stored [sample_task "a" PENDING 0; sample_task "b" PENDING 1] in
  NoDup (map id (table (fst (create E (sample_dto "third" "u1") s))))
  /\ NoDup (map id (table (fst (bulkDelete ["a"%string] s)))).
Proof.
  intros E s.
  assert (Hnodup : NoDup (map id (table s))).
  { simpl. repeat constructor; simpl; intuition discriminate. }
  destruct (unique_ids_preserved E s Hnodup) as (Hc & _ & _ & _ & Hd & _).
  split; [apply Hc | apply Hd].
Defined.

(** X7.  The methods that open a transaction end it on every path: from any
    state and with any arguments, no transaction is open once create, update,
    bulkUpdateStatus or bulkDelete has returned or thrown. *)
Theorem no_transaction_left_open (E : Engine) (s : State) :
  (forall dto, tx (fst (create E dto s)) = None)
  /\ (forall i dto, tx (fst (update E i dto s)) = None)
  /\ (forall ids st, tx (fst (bulkUpdateStatus E ids st s)) = None)
  /\ (forall ids, tx (fst (bulkDelete ids s)) = None).
Proof.
  repeat split.
  - intros dto. run.
    destruct (existsb _ _); simpl; [reflexivity |].
    now destruct (accepts E _ _).
  - intros i dto. run.
    destruct (find (has_id i) (table s)) as [t|]; simpl; [| reflexivity].
    destruct (negb _); simpl; [| reflexivity].
    now destruct (accepts E _ _).
  - intros ids st. apply bulkUpdateStatus_table.
  - intros ids. destruct ids; reflexivity.
Qed.

(** ** Deleting in bulk *)

Lemma find_after_bulk_delete (ids : list string) (j : string) (l : list Task) :
  find (has_id j) (filter (fun r => negb (mem (id r) ids)) l)
  = if mem j ids then None else find (has_id j) l.
Proof.
  induction l as [|r l IH]; simpl.
  - now destruct (mem j ids).
  - destruct (has_id j r) eqn:Hj.
    + assert (Hid : id r = j) by now apply String.eqb_eq.
      rewrite Hid. destruct (mem j ids) eqn:Hm; simpl.
      * exact IH.
      * now rewrite Hj.
    + destruct (mem (id r) ids); simpl; [exact IH |].
      now rewrite Hj.
Qed.

(** X8.  bulkDelete on a non-empty list of ids returns; afterwards no listed
    id is found, every other id is looked up as before, and the queue has
    been handed nothing. *)
Theorem bulkDelete_removes_listed (ids : list string) (s : State) :
  ids <> [] ->
  exists s',
    bulkDelete ids s = (s', Returned tt)
    /\ (forall i, In i ids ->
                  findOne i s' = (s', Thrown (NotFoundException "Task not found")))
    /\ (forall i, ~ In i ids -> findOne i s' = (s', snd (findOne i s)))
    /\ queue s' = queue s
    /\ sent s' = sent s.
Proof.
  intros Hne. rewrite bulkDelete_run by exact Hne.
  eexists. split; [reflexivity |].
  unfold findOne, tasksRepository_findOne, bind, ret, throw. simpl.
  repeat split.
  - intros i Hin. rewrite find_after_bulk_delete.
    apply mem_In in Hin. now rewrite Hin.
  - intros i Hnot. rewrite find_after_bulk_delete.
    destruct (mem i ids) eqn:Hm.
    + apply mem_In in Hm. contradiction.
    + now destruct (find (has_id i) (table s)).
Qed.

Lemma bulkDelete_removes_listed_witness :
  let s := stored [sample_task "a" PENDING 0; sample_task "b" PENDING 1;
                   sample_task "c" PENDING 2] in
  exists s', bulkDelete ["a"; "c"; "z"]%string s = (s', Returned tt)
             /\ snd (findOne "a" s') = Thrown (NotFoundException "Task not found")
             /\ snd (findOne "b" s') = Returned (sample_task "b" PENDING 1).
Proof.
  intros s.
  assert (Hne : ["a"; "c"; "z"]%string <> []) by discriminate.
  destruct (bulkDelete_removes_listed ["a"; "c"; "z"]%string s Hne)
    as (s' & Hrun & Hgone & Hkept & _).
  exists s'. split; [exact Hrun |]. split.
  - rewrite Hgone; [reflexivity | simpl; auto].
  - rewrite Hkept; [reflexivity | simpl; intuition discriminate].
Defined.

(** X9.  An empty list of ids is refused: bulkUpdateStatus and bulkDelete
    throw before touching anything, and the batch endpoint answers both
    actions with status 500. *)
Theorem empty_batch_is_refused (E : Engine) (st : TaskStatus) (s : State) :
  (exists s' m, bulkUpdateStatus E [] st s = (s', Thrown (TypeORMError m))
                /\ table s' = table s /\ queue s' = queue s /\ sent s' = sent s)
  /\ (exists s' m, bulkDelete [] s = (s', Thrown (TypeORMError m))
                   /\ table s' = table s /\ queue s' = queue s /\ sent s' = sent s)
  /\ (exists s' e,
         TasksController.batchProcess E (BatchRequest.make [] "complete") s
         = (s', Thrown e) /\ http_status e = 500)
  /\ (exists s' e,
         TasksController.batchProcess E (BatchRequest.make [] "delete") s
         = (s', Thrown e) /\ http_status e = 500).
Proof.
  repeat split; eexists; eexists; repeat split.
Qed.

(** X10.  Whatever the batch endpoint throws, for whatever request, is
    answered with status 500, and the committed table is then the one from
    before the request. *)
Theorem batchProcess_failure_is_500_and_rolled_back
  (E : Engine) (operations : BatchRequest.t) (s s' : State) (e : Exception) :
  TasksController.batchProcess E operations s = (s', Thrown e) ->
  http_status e = 500 /\ table s' = table s.
Proof.
  destruct operations as [ids action].
  unfold TasksController.batchProcess. simpl.
  unfold try_catch. unfold bind at 1.
  destruct (action =? "complete")%string.
  - unfold bind at 1.
    destruct (bulkUpdateStatus E ids COMPLETED s) as [s1 [r|e1]] eqn:Hrun.
    + unfold ret. discriminate.
    + unfold throw. intros H. inversion H; subst.
      apply bulkUpdateStatus_thrown in Hrun. tauto.
  - destruct (action =? "delete")%string.
    + destruct ids as [|i0 ids0].
      * unfold bind. rewrite bulkDelete_empty. unfold throw.
        intros H. inversion H; subst. auto.
      * unfold bind. rewrite bulkDelete_run by discriminate.
        unfold ret. discriminate.
    + unfold throw. intros H. inversion H; subst. auto.
Qed.

Lemma batchProcess_failure_is_500_and_rolled_back_witness :
  let E := insertion_order_engine never [] in
  let s := stored [sample_task "a" PENDING 0] in
  let r := TasksController.batchProcess E (BatchRequest.make ["a"%string] "complete") s in
  snd r = Thrown (HttpException "Failed to add job to queue" 500)
  /\ table (fst r) = [sample_task "a" PENDING 0].
Proof.
  intros E s r.
  destruct (batchProcess_failure_is_500_and_rolled_back
              E (BatchRequest.make ["a"%string] "complete") s (fst r)
              (HttpException "Failed to add job to queue" 500) eq_refl)
    as [_ Ht].
  split; [reflexivity | exact Ht].
Defined.

(** ** Statistics and listings by status *)

Lemma length_find_where (E : Engine) (p : Task -> bool) (s : State) :
  List.length (page_rows (tasksRepository_find_where E p s))
  = count_filter p (table s).
Proof.
  unfold page_rows, tasksRepository_find_where, count_filter. simpl.
  apply Permutation_length, row_order_perm.
Qed.

Lemma filter_all (A : Type) (l : list A) : filter (fun _ => true) l = l.
Proof. induction l as [|a l IH]; simpl; [reflexivity | now rewrite IH]. Qed.

Lemma statuses_counted_once (l : list Task) :
  (count_filter (has_status COMPLETED) l
   + count_filter (has_status IN_PROGRESS) l
   + count_filter (has_status PENDING) l <= List.length l)%nat.
Proof.
  unfold count_filter, has_status. induction l as [|r l IH]; simpl.
  - lia.
  - destruct (status r); simpl; lia.
Qed.

(** X11.  getTaskStats changes nothing and agrees with the listings: [total]
    is the number of tasks getAllTasks returns, [completed], [inProgress] and
    [pending] are the numbers of tasks findByStatus returns for the three
    statuses, no task is counted under two statuses, and [highPriority] does
    not exceed [total]. *)
Theorem stats_agree_with_listings (E : Engine) (s : State) :
  exists st,
    getTaskStats s = (s, Returned st)
    /\ TaskStats.total st = List.length (page_rows (getAllTasks E s))
    /\ TaskStats.completed st = List.length (page_rows (findByStatus E COMPLETED s))
    /\ TaskStats.inProgress st = List.length (page_rows (findByStatus E IN_PROGRESS s))
    /\ TaskStats.pending st = List.length (page_rows (findByStatus E PENDING s))
    /\ (TaskStats.completed st + TaskStats.inProgress st + TaskStats.pending st
        <= TaskStats.total st)%nat
    /\ (TaskStats.highPriority st <= TaskStats.total st)%nat.
Proof.
  eexists. split; [reflexivity |]. simpl.
  unfold getAllTasks, findByStatus. rewrite !length_find_where.
  repeat split.
  - unfold count_filter. now rewrite filter_all.
  - apply statuses_counted_once.
  - unfold count_filter. apply filter_length_le.
Qed.

Lemma count_filter_appended (p : Task -> bool) (l : list Task) (t : Task) :
  count_filter p (l ++ [t])
  = (count_filter p l + if p t then 1 else 0)%nat.
Proof.
  unfold count_filter. rewrite filter_app, length_app. simpl.
  now destruct (p t).
Qed.

(** X12.  After a create() that returns, the statistics count one task more:
    [total] has grown by one, the counter of the new task's status by one
    (that is [pending] when the DTO names no status), [highPriority] by one
    exactly when the task has priority HIGH, and the other counters are as
    before. *)
Theorem create_raises_stats
  (E : Engine) (dto : CreateTaskDto.t) (s s' : State) (t : Task) :
  create E dto s = (s', Returned t) ->
  exists before after,
    getTaskStats s = (s, Returned before)
    /\ getTaskStats s' = (s', Returned after)
    /\ TaskStats.total after = S (TaskStats.total before)
    /\ TaskStats.completed after
       = (TaskStats.completed before + if has_status COMPLETED t then 1 else 0)%nat
    /\ TaskStats.inProgress after
       = (TaskStats.inProgress before + if has_status IN_PROGRESS t then 1 else 0)%nat
    /\ TaskStats.pending after
       = (TaskStats.pending before + if has_status PENDING t then 1 else 0)%nat
    /\ TaskStats.highPriority after
       = (TaskStats.highPriority before + if has_priority HIGH t then 1 else 0)%nat
    /\ (CreateTaskDto.status dto = None ->
        TaskStats.pending after = S (TaskStats.pending before)).
Proof.
  intros Hrun. destruct (create_returned _ _ _ _ _ Hrun) as (Ht & _ & Hst & _).
  eexists. eexists. split; [reflexivity |]. split; [reflexivity |].
  simpl. rewrite Ht, !count_filter_appended, length_app. simpl.
  repeat split; try lia.
  intros Hnone. unfold has_status. rewrite Hst.
  unfold created_status. rewrite Hnone. simpl. lia.
Qed.

Lemma create_raises_stats_witness :
  let E := insertion_order_engine always ["a"; "b"]%string in
  let s := fst (create E (sample_dto "first" "u1") empty) in
  let s' := fst (create E (sample_dto "second" "u1") s) in
  exists before after,
    getTaskStats s = (s, Returned before)
    /\ getTaskStats s' = (s', Returned after)
    /\ TaskStats.total after = S (TaskStats.total before)
    /\ TaskStats.pending after = S (TaskStats.pending before).
Proof.
  intros E s s'.
  destruct (create_raises_stats E (sample_dto "second" "u1") s s'
              (mkTask "b" "second" None PENDING MEDIUM None "u1" 1) eq_refl)
    as (before & after & Hb & Ha & Htotal & _ & _ & _ & _ & Hpending).
  exists before, after. repeat split; try assumption.
  now apply Hpending.
Defined.

Lemma update_returned (E : Engine) (i : string) (dto : UpdateTaskDto.t)
  (s s' : State) (t t' : Task) :
  find (has_id i) (table s) = Some t ->
  update E i dto s = (s', Returned t') ->
  t' = assign t dto
  /\ table s' = map (replace_row t') (table s)
  /\ find (has_id i) (table s') = Some t'.
Proof.
  intros Hfind. pose proof (find_has_id _ _ _ Hfind) as Hid.
  run. rewrite Hfind. simpl.
  destruct (negb _); simpl.
  - destruct (accepts E _ _); simpl; intros H; [| discriminate].
    inversion H; subst; simpl. repeat split.
    now apply find_replace_row with (t := t).
  - intros H. inversion H; subst; simpl. repeat split.
    now apply find_replace_row with (t := t).
Qed.

(** X13.  After an update() that returns (ids being unique in the table),
    findByStatus lists the task under the status it now has, with its new
    fields, and under no other status. *)
Theorem update_moves_task_between_status_listings
  (E : Engine) (i : string) (dto : UpdateTaskDto.t) (s s' : State) (t t' : Task) :
  NoDup (map id (table s)) ->
  find (has_id i) (table s) = Some t ->
  update E i dto s = (s', Returned t') ->
  In t' (page_rows (findByStatus E (status t') s'))
  /\ (forall st, st <> status t' ->
                 ~ In i (map id (page_rows (findByStatus E st s')))).
Proof.
  intros Hnodup Hfind Hrun.
  destruct (update_returned _ _ _ _ _ _ _ Hfind Hrun) as (_ & Ht & Hfind').
  assert (Hnodup' : NoDup (map id (table s')))
    by (rewrite Ht, map_id_replace_row; exact Hnodup).
  assert (Hin : In t' (table s')) by now apply find_some in Hfind'.
  assert (Hid : id t' = i) by now apply find_has_id with (l := table s').
  unfold findByStatus, tasksRepository_find_where, page_rows. simpl. split.
  - apply (Permutation_in _ (Permutation_sym (row_order_perm E _))).
    apply filter_In. split; [exact Hin |].
    unfold has_status. now apply TaskStatus_eqb_eq.
  - intros st Hne Hlisted. apply in_map_iff in Hlisted.
    destruct Hlisted as (r & Hr & Hrin).
    apply (Permutation_in _ (row_order_perm E _)) in Hrin.
    apply filter_In in Hrin. destruct Hrin as [Hrin Hst].
    unfold has_status in Hst. apply TaskStatus_eqb_eq in Hst.
    assert (r = t') by (apply same_id_same_row with (l := table s'); congruence).
    subst r. congruence.
Qed.

Lemma update_moves_task_between_status_listings_witness :
  let E := primary_key_engine always [] in
  let s := stored [sample_task "b" PENDING 0; sample_task "a" PENDING 1] in
  let s' := fst (update E "b" (UpdateTaskDto.make None None (Some COMPLETED) None None) s) in
  In (sample_task "b" COMPLETED 0) (page_rows (findByStatus E COMPLETED s'))
  /\ ~ In "b"%string (map id (page_rows (findByStatus E PENDING s'))).
Proof.
  intros E s s'.
  assert (Hnodup : NoDup (map id (table s))).
  { simpl. repeat constructor; simpl; intuition discriminate. }
  destruct (update_moves_task_between_status_listings
              E "b" (UpdateTaskDto.make None None (Some COMPLETED) None None)
              s s' (sample_task "b" PENDING 0) (sample_task "b" COMPLETED 0)
              Hnodup eq_refl eq_refl) as [Hin Hout].
  split; [exact Hin | apply Hout; discriminate].
Defined.

(** ** The queue consumer's entry point *)

Lemma TaskStatus_of_label (st : TaskStatus) :
  TaskStatus_of_string (TaskStatus_label st) = Some st.
Proof. now destruct st. Qed.

(** X14.  applyStatusUpdateFromQueue on a stored task returns the task with
    the given status and its other fields as they were; the task is found
    with that status afterwards, no row is added or removed, and the queue is
    handed nothing, so applying a job never produces another job. *)
Theorem applyStatusUpdateFromQueue_sets_status
  (i : string) (st : TaskStatus) (s : State) (t : Task) :
  find (has_id i) (table s) = Some t ->
  exists s',
    applyStatusUpdateFromQueue i (TaskStatus_label st) s
    = (s', Returned (set_status st t))
    /\ findOne i s' = (s', Returned (set_status st t))
    /\ map id (table s') = map id (table s)
    /\ queue s' = queue s
    /\ sent s' = sent s.
Proof.
  intros Hfind. pose proof (find_has_id _ _ _ Hfind) as Hid.
  unfold applyStatusUpdateFromQueue. rewrite TaskStatus_of_label.
  run. rewrite Hfind. simpl.
  eexists. split; [reflexivity |]. simpl.
  rewrite (find_replace_row i (table s) t (set_status st t) Hfind Hid). simpl.
  repeat split. apply map_id_replace_row.
Qed.

Lemma applyStatusUpdateFromQueue_sets_status_witness :
  let s := stored [sample_task "a" PENDING 0] in
  exists s',
    applyStatusUpdateFromQueue "a" "COMPLETED" s
    = (s', Returned (sample_task "a" COMPLETED 0))
    /\ sent s' = [].
Proof.
  intros s.
  destruct (applyStatusUpdateFromQueue_sets_status
              "a" COMPLETED s (sample_task "a" PENDING 0) eq_refl)
    as (s' & Hrun & _ & _ & _ & Hs).
  exists s'. split; [exact Hrun | exact Hs].
Defined.

(** X15.  A status job that arrives after its task was removed is not
    applied: whatever status it carries, applyStatusUpdateFromQueue throws
    NotFoundException and the task is not brought back. *)
Theorem job_for_removed_task_is_not_applied (i status : string) (s : State) :
  let s' := fst (remove i s) in
  applyStatusUpdateFromQueue i status s'
  = (s', Thrown (NotFoundException "Task not found")).
Proof.
  unfold applyStatusUpdateFromQueue. run.
  rewrite find_after_delete, String.eqb_refl. reflexivity.
Qed.

Lemma find_stored (l : list Task) (t : Task) :
  NoDup (map id l) -> In t l -> find (has_id (id t)) l = Some t.
Proof.
  intros Hnodup Hin.
  destruct (find (has_id (id t)) l) as [r|] eqn:Hfind.
  - f_equal. apply same_id_same_row with (l := l); try assumption.
    + now apply find_some in Hfind.
    + now apply find_has_id with (l := l).
  - apply find_none with (x := t) in Hfind; [| exact Hin].
    unfold has_id in Hfind. rewrite String.eqb_refl in Hfind. discriminate.
Qed.

Lemma set_own_status (t : Task) : set_status (status t) t = t.
Proof. now destruct t. Qed.

(** X16.  Applying the job of a stored task, that is the job { taskId,
    status } that create, update and bulkUpdateStatus enqueue for it, leaves
    the whole state as it is (ids being unique in the table) and returns the
    task. *)
Theorem applying_the_job_of_a_stored_task_changes_nothing (s : State) (t : Task) :
  NoDup (map id (table s)) ->
  In t (table s) ->
  applyStatusUpdateFromQueue (Job.taskId (job_of t))
                             (TaskStatus_label (Job.status (job_of t))) s
  = (s, Returned t).
Proof.
  intros Hnodup Hin. unfold applyStatusUpdateFromQueue, job_of. simpl.
  rewrite TaskStatus_of_label. run.
  rewrite (find_stored _ _ Hnodup Hin). simpl.
  rewrite set_own_status, replace_stored_row by assumption.
  now destruct s.
Qed.

Lemma applying_the_job_of_a_stored_task_changes_nothing_witness :
  let E := insertion_order_engine always ["a"%string] in
  let s := fst (create E (sample_dto "write report" "u1") empty) in
  queue s = [Job.make "a" PENDING]
  /\ applyStatusUpdateFromQueue "a" "PENDING" s
     = (s, Returned (mkTask "a" "write report" None PENDING MEDIUM None "u1" 0)).
Proof.
  intros E s. split; [reflexivity |].
  assert (Hnodup : NoDup (map id (table s))).
  { simpl. repeat constructor. simpl. tauto. }
  assert (Hin : In (mkTask "a" "write report" None PENDING MEDIUM None "u1" 0)
                   (table s)) by (simpl; auto).
  exact (applying_the_job_of_a_stored_task_changes_nothing s _ Hnodup Hin).
Defined.

(** ** What a listing returns *)

Lemma In_slice (A : Type) (a b : nat) (l : list A) (x : A) :
  In x (firstn a (skipn b l)) -> In x l.
Proof.
  intros H. rewrite <- (firstn_skipn b l). apply in_or_app. right.
  rewrite <- (firstn_skipn a (skipn b l)). apply in_or_app. now left.
Qed.

Lemma In_rest (A : Type) (b : nat) (l : list A) (x : A) :
  In x (skipn b l) -> In x l.
Proof.
  intros H. rewrite <- (firstn_skipn b l). apply in_or_app. now right.
Qed.

Lemma paginate_returned (skip take : Z) (l page : list Task) :
  paginate skip take l = Returned page ->
  (1 <= take -> (List.length page <= Z.to_nat take)%nat)
  /\ forall r, In r page -> In r l.
Proof.
  unfold paginate.
  destruct ((skip <? 0) || (take <? 0)); [discriminate |].
  destruct ((BIGINT_MAX <? skip) || (BIGINT_MAX <? take)); [discriminate |].
  intros H. inversion H; subst; clear H. split.
  - intros Htake. assert (H0 : (take =? 0) = false) by (apply Z.eqb_neq; lia).
    rewrite H0. apply firstn_le_length.
  - intros r. destruct (take =? 0).
    + apply In_rest.
    + apply In_slice.
Qed.

Lemma select_returned (E : Engine) (p : Task -> bool) (skip take : Z)
  (s s' : State) (rows : list Task) :
  select E p skip take s = (s', Returned rows) ->
  s' = s
  /\ (1 <= take -> (List.length rows <= Z.to_nat take)%nat)
  /\ forall r, In r rows -> In r (table s) /\ p r = true.
Proof.
  unfold select.
  destruct ((skip =? 0) && (take =? 0)) eqn:Hplain.
  - intros H. injection H as Hs Hrows. subst s' rows.
    apply andb_true_iff in Hplain. destruct Hplain as [_ Htake].
    apply Z.eqb_eq in Htake. repeat split.
    + lia.
    + apply (Permutation_in _ (row_order_perm E _)) in H.
      now apply filter_In in H.
    + apply (Permutation_in _ (row_order_perm E _)) in H.
      now apply filter_In in H.
  - destruct (paginate skip take (order_by_id (filter p (table s))))
      as [page|e] eqn:Hpage; intros H; [| discriminate].
    injection H as Hs Hrows. subst s' rows.
    apply paginate_returned in Hpage. destruct Hpage as [Hlen Hin].
    assert (Hrow : forall r, In r (row_order E page) -> In r (filter p (table s))).
    { intros r Hr. apply (Permutation_in _ (row_order_perm E _)) in Hr.
      apply Hin in Hr.
      now apply (Permutation_in _ (order_by_id_permutation _)) in Hr. }
    repeat split.
    + intros Htake. rewrite (Permutation_length (row_order_perm E page)).
      now apply Hlen.
    + apply Hrow in H. now apply filter_In in H.
    + apply Hrow in H. now apply filter_In in H.
Qed.

Lemma TaskPriority_eqb_eq (a b : TaskPriority) : TaskPriority_eqb a b = true <-> a = b.
Proof. destruct a, b; simpl; split; intros H; congruence. Qed.

(** X17.  Whatever findAll returns, for whatever page, page size and filter
    strings, it has changed nothing; every task returned is stored and
    belongs to the user asked for; when a status or a priority string is
    given, it is a label of the enum and every task returned has that status
    or priority; and with a page size of at least 1 no more tasks than the
    page size are returned. *)
Theorem findAll_returns_only_the_users_matching_tasks
  (E : Engine) (u : string) (page n : Z) (status_ priority_ : string)
  (s s' : State) (rows : list Task) :
  findAll E u page n status_ priority_ s = (s', Returned rows) ->
  s' = s
  /\ incl rows (table s)
  /\ Forall (fun r => userId r = u) rows
  /\ (status_ <> ""%string ->
      exists st, TaskStatus_of_string status_ = Some st
                 /\ Forall (fun r => status r = st) rows)
  /\ (priority_ <> ""%string ->
      exists pr, TaskPriority_of_string priority_ = Some pr
                 /\ Forall (fun r => priority r = pr) rows)
  /\ (1 <= n -> Z.of_nat (List.length rows) <= n).
Proof.
  unfold findAll, tasksRepository_find. simpl.
  destruct (enum_param TaskStatus_of_string
              (if truthy status_ then Some status_ else None)) as [st|] eqn:Hst;
    [| unfold throw; discriminate].
  destruct (enum_param TaskPriority_of_string
              (if truthy priority_ then Some priority_ else None)) as [pr|] eqn:Hpr;
    [| unfold throw; discriminate].
  intros Hrun. apply select_returned in Hrun.
  destruct Hrun as (Hs & Hlen & Hrows).
  assert (Hall : forall r, In r rows ->
             userId r = u
             /\ match st with Some v => status r = v | None => True end
             /\ match pr with Some v => priority r = v | None => True end).
  { intros r Hin. destruct (Hrows r Hin) as [_ Hm].
    unfold where_matches in Hm.
    apply andb_true_iff in Hm. destruct Hm as [Hm Hp].
    apply andb_true_iff in Hm. destruct Hm as [Hu Hm].
    apply String.eqb_eq in Hu. repeat split; [exact Hu | |].
    - destruct st; [now apply TaskStatus_eqb_eq | exact I].
    - destruct pr; [now apply TaskPriority_eqb_eq | exact I]. }
  repeat split.
  - exact Hs.
  - intros r Hin. now apply Hrows.
  - apply Forall_forall. intros r Hin. now apply Hall.
  - intros Hne. apply String.eqb_neq in Hne. unfold truthy in Hst.
    rewrite Hne in Hst. simpl in Hst.
    destruct (TaskStatus_of_string status_) as [v|]; [| discriminate].
    inversion Hst; subst. exists v. split; [reflexivity |].
    apply Forall_forall. intros r Hin. now apply (Hall r Hin).
  - intros Hne. apply String.eqb_neq in Hne. unfold truthy in Hpr.
    rewrite Hne in Hpr. simpl in Hpr.
    destruct (TaskPriority_of_string priority_) as [v|]; [| discriminate].
    inversion Hpr; subst. exists v. split; [reflexivity |].
    apply Forall_forall. intros r Hin. now apply (Hall r Hin).
  - intros Hn. specialize (Hlen Hn). lia.
Qed.

Lemma findAll_returns_only_the_users_matching_tasks_witness :
  let E := insertion_order_engine always [] in
  let other := mkTask "x" "not mine" None PENDING HIGH None "u2" 5 in
  let s := stored [sample_task "a" PENDING 0; other; sample_task "b" COMPLETED 1;
                   sample_task "c" PENDING 2] in
  exists rows,
    findAll E "u1" 1 10 "PENDING" "" s = (s, Returned rows)
    /\ Forall (fun r => userId r = "u1"%string) rows
    /\ map id rows = ["a"; "c"]%string.
Proof.
  intros E other s.
  exists [sample_task "a" PENDING 0; sample_task "c" PENDING 2].
  destruct (findAll_returns_only_the_users_matching_tasks
              E "u1" 1 10 "PENDING" "" s s
              [sample_task "a" PENDING 0; sample_task "c" PENDING 2] eq_refl)
    as (_ & _ & Hu & _).
  split; [reflexivity |]. split; [exact Hu | reflexivity].
Defined.



(** X19.  Pages are numbered from 1: with a page size of at least 1, a page
    number of 0 or below makes the offset negative and findAll throws the
    database's error instead of returning rows. *)
Theorem findAll_page_below_one_throws
  (E : Engine) (u : string) (st : option TaskStatus) (pr : option TaskPriority)
  (s : State) (page n : Z) :
  page <= 0 ->
  1 <= n ->
  exists m,
    findAll E u page n
            (query_param TaskStatus_label st) (query_param TaskPriority_label pr) s
    = (s, Thrown (QueryFailedError m)).
Proof.
  intros Hpage Hn. rewrite findAll_select. unfold select, paginate.
  assert (Hneg : ((page - 1) * n <? 0) = true) by (apply Z.ltb_lt; nia).
  assert (H0 : (n =? 0) = false) by (apply Z.eqb_neq; lia).
  rewrite H0, andb_false_r, Hneg. simpl. eauto.
Qed.

Lemma findAll_page_below_one_throws_witness :
  let E := insertion_order_engine always [] in
  let s := stored [sample_task "a" PENDING 0] in
  exists m, findAll E "u1" 0 10 "" "" s = (s, Thrown (QueryFailedError m)).
Proof.
  intros E s.
  assert (H0 : 0 <= 0) by lia.
  assert (H1 : 1 <= 10) by lia.
  exact (findAll_page_below_one_throws E "u1" None None s 0 10 H0 H1).
Defined.

(** X20.  Whatever the query-builder revision of findAll returns, it has
    changed nothing and every task returned is stored, belongs to the user
    asked for (the filter's own userId field is never read), has the status
    and the priority the filter names, and was created within the dates the
    filter gives. *)
Theorem query_builder_rows_satisfy_filter
  (E : Engine) (u : string) (page n : Z) (f : TaskFilterDto.t)
  (s s' : State) (rows : list Task) :
  QueryBuilder.findAll E u page n f s = (s', Returned rows) ->
  s' = s
  /\ incl rows (table s)
  /\ Forall (fun r => userId r = u) rows
  /\ (forall v, TaskFilterDto.status f = Some v ->
                Forall (fun r => status r = v) rows)
  /\ (forall v, TaskFilterDto.priority f = Some v ->
                Forall (fun r => priority r = v) rows)
  /\ (forall d, TaskFilterDto.fromDate f = Some d -> d <> ""%string ->
                exists z, timestamp_of_string E d = Some z
                          /\ Forall (fun r => z <= createdAt r) rows)
  /\ (forall d, TaskFilterDto.toDate f = Some d -> d <> ""%string ->
                exists z, timestamp_of_string E d = Some z
                          /\ Forall (fun r => createdAt r <= z) rows).
Proof.
  unfold QueryBuilder.findAll.
  destruct (QueryBuilder.date_param E (TaskFilterDto.fromDate f)) as [from|] eqn:Hfrom;
    [| unfold throw; discriminate].
  destruct (QueryBuilder.date_param E (TaskFilterDto.toDate f)) as [to|] eqn:Hto;
    [| unfold throw; discriminate].
  intros Hrun. apply select_returned in Hrun.
  destruct Hrun as (Hs & _ & Hrows).
  assert (Hall : forall r, In r rows ->
             userId r = u
             /\ match TaskFilterDto.status f with
                | Some v => status r = v | None => True end
             /\ match TaskFilterDto.priority f with
                | Some v => priority r = v | None => True end
             /\ match from with Some z => z <= createdAt r | None => True end
             /\ match to with Some z => createdAt r <= z | None => True end).
  { intros r Hin. destruct (Hrows r Hin) as [_ Hm].
    unfold QueryBuilder.andWhere in Hm.
    repeat (apply andb_true_iff in Hm; destruct Hm as [Hm ?]).
    apply String.eqb_eq in Hm. repeat split; [exact Hm | | | |].
    - destruct (TaskFilterDto.status f); [now apply TaskStatus_eqb_eq | exact I].
    - destruct (TaskFilterDto.priority f); [now apply TaskPriority_eqb_eq | exact I].
    - destruct from; [now apply Z.leb_le | exact I].
    - destruct to; [now apply Z.leb_le | exact I]. }
  repeat split.
  - exact Hs.
  - intros r Hin. now apply Hrows.
  - apply Forall_forall. intros r Hin. now apply Hall.
  - intros v Hv. apply Forall_forall. intros r Hin.
    destruct (Hall r Hin) as (_ & H1 & _). now rewrite Hv in H1.
  - intros v Hv. apply Forall_forall. intros r Hin.
    destruct (Hall r Hin) as (_ & _ & H1 & _). now rewrite Hv in H1.
  - intros d Hd Hne. unfold QueryBuilder.date_param in Hfrom.
    rewrite Hd in Hfrom. apply String.eqb_neq in Hne.
    unfold truthy in Hfrom. rewrite Hne in Hfrom. simpl in Hfrom.
    destruct (timestamp_of_string E d) as [z|]; [| discriminate].
    inversion Hfrom; subst. exists z. split; [reflexivity |].
    apply Forall_forall. intros r Hin. now apply (Hall r Hin).
  - intros d Hd Hne. unfold QueryBuilder.date_param in Hto.
    rewrite Hd in Hto. apply String.eqb_neq in Hne.
    unfold truthy in Hto. rewrite Hne in Hto. simpl in Hto.
    destruct (timestamp_of_string E d) as [z|]; [| discriminate].
    inversion Hto; subst. exists z. split; [reflexivity |].
    apply Forall_forall. intros r Hin. now apply (Hall r Hin).
Qed.

Lemma query_builder_rows_satisfy_filter_witness :
  let E := insertion_order_engine always [] in
  let other := mkTask "x" "not mine" None PENDING HIGH None "u2" 5 in
  let s := stored [sample_task "a" PENDING 0; other; sample_task "b" COMPLETED 1] in
  let f := TaskFilterDto.make (Some PENDING) None None None None (Some "u2"%string) in
  exists rows,
    QueryBuilder.findAll E "u1" 1 10 f s = (s, Returned rows)
    /\ Forall (fun r => userId r = "u1"%string) rows
    /\ map id rows = ["a"%string].
Proof.
  intros E other s f. exists [sample_task "a" PENDING 0].
  destruct (query_builder_rows_satisfy_filter
              E "u1" 1 10 f s s [sample_task "a" PENDING 0] eq_refl)
    as (_ & _ & Hu & _).
  split; [reflexivity |]. split; [exact Hu | reflexivity].
Defined.

(** ** The first revision *)

(** X21.  The first revision of remove() removes a stored task and returns;
    on an id that is not stored it throws NotFoundException and leaves the
    state as it is; so the second of two successive calls always throws
    NotFoundException. *)
Theorem first_revision_remove_reports_missing_id (i : string) (s : State) :
  (forall t, find (has_id i) (table s) = Some t ->
             exists s', FirstRevision.remove i s = (s', Returned tt)
                        /\ find (has_id i) (table s') = None
                        /\ forall j, j <> i ->
                                     find (has_id j) (table s') = find (has_id j) (table s))
  /\ (find (has_id i) (table s) = None ->
      FirstRevision.remove i s = (s, Thrown (NotFoundException "Task not found")))
  /\ snd (FirstRevision.remove i (fst (FirstRevision.remove i s)))
     = Thrown (NotFoundException "Task not found").
Proof.
  unfold FirstRevision.remove. run. repeat split.
  - intros t Hfind. pose proof (find_has_id _ _ _ Hfind) as Hid.
    rewrite Hfind. simpl. rewrite Hid. eexists. split; [reflexivity |]. simpl.
    split.
    + rewrite find_after_delete, String.eqb_refl. reflexivity.
    + intros j Hne. rewrite find_after_delete.
      apply String.eqb_neq in Hne. now rewrite Hne.
  - intros Hfind. now rewrite Hfind.
  - destruct (find (has_id i) (table s)) as [t|] eqn:Hfind; simpl.
    + pose proof (find_has_id _ _ _ Hfind) as Hid. rewrite Hid.
      rewrite find_after_delete, String.eqb_refl. reflexivity.
    + now rewrite Hfind.
Qed.

Lemma first_revision_remove_reports_missing_id_witness :
  let s := stored [sample_task "a" PENDING 0; sample_task "b" PENDING 1] in
  (exists s', FirstRevision.remove "a" s = (s', Returned tt)
              /\ find (has_id "a") (table s') = None)
  /\ FirstRevision.remove "z" s = (s, Thrown (NotFoundException "Task not found")).
Proof.
  intros s.
  destruct (first_revision_remove_reports_missing_id "a" s) as (Hgone & _ & _).
  destruct (Hgone _ eq_refl) as (s' & Hrun & Hnone & _).
  destruct (first_revision_remove_reports_missing_id "z" s) as (_ & Hmissing & _).
  split; [exists s'; split; assumption | exact (Hmissing eq_refl)].
Defined.

Lemma first_revision_update_run
  (E : Engine) (i : string) (dto : UpdateTaskDto.t) (s : State) (t : Task) :
  find (has_id i) (table s) = Some t ->
  let t' := FirstRevision.assign_truthy t dto in
  let s1 := with_table (map (replace_row t') (table s)) s in
  FirstRevision.update E i dto s
  = (if negb (TaskStatus_eqb (status t) (status t'))
     then fst (taskQueue_add E (Job.make (id t') (status t')) s1)
     else s1,
     Returned t').
Proof.
  intros Hfind t' s1.
  unfold FirstRevision.update, findOne, tasksRepository_findOne,
    tasksRepository_save, not_awaited, bind, ret.
  rewrite Hfind. fold t'. fold s1.
  destruct (negb (TaskStatus_eqb (status t) (status t'))); [| reflexivity].
  now destruct (taskQueue_add E (Job.make (id t') (status t')) s1) as [s2 [u|e]].
Qed.

(** X22.  The first revision of update() does not depend on the queue: on a
    stored task it returns the updated task and the table holds it, whether
    the queue accepts the status job or not; when the queue refuses the job
    of a changed status, the table keeps the new status and the queue holds
    no job for it. *)
Theorem first_revision_update_ignores_the_queue
  (E : Engine) (i : string) (dto : UpdateTaskDto.t) (s : State) (t : Task) :
  find (has_id i) (table s) = Some t ->
  let t' := FirstRevision.assign_truthy t dto in
  exists s',
    FirstRevision.update E i dto s = (s', Returned t')
    /\ find (has_id i) (table s') = Some t'
    /\ (status t' <> status t ->
        accepts E (List.length (sent s)) (Job.make i (status t')) = false ->
        queue s' = queue s).
Proof.
  intros Hfind t'. pose proof (find_has_id _ _ _ Hfind) as Hid.
  rewrite (first_revision_update_run E i dto s t Hfind). fold t'.
  assert (Hfind' : find (has_id i) (map (replace_row t') (table s)) = Some t')
    by now apply find_replace_row with (t := t).
  eexists. split; [reflexivity |].
  destruct (negb (TaskStatus_eqb (status t) (status t'))) eqn:Hchanged.
  - unfold taskQueue_add. simpl sent.
    replace (id t') with i by (symmetry; exact Hid).
    destruct (accepts E (List.length (sent s)) (Job.make i (status t'))) eqn:Hacc;
      simpl; (split; [exact Hfind' |]).
    + intros _ H. discriminate.
    + reflexivity.
  - simpl. split; [exact Hfind' |].
    intros Hne. apply negb_false_iff, TaskStatus_eqb_eq in Hchanged.
    congruence.
Qed.

Lemma first_revision_update_ignores_the_queue_witness :
  let E := insertion_order_engine never [] in
  let s := stored [sample_task "a" PENDING 0] in
  let dto := UpdateTaskDto.make None None (Some COMPLETED) None None in
  exists s',
    FirstRevision.update E "a" dto s = (s', Returned (sample_task "a" COMPLETED 0))
    /\ find (has_id "a") (table s') = Some (sample_task "a" COMPLETED 0)
    /\ queue s' = [].
Proof.
  intros E s dto.
  destruct (first_revision_update_ignores_the_queue
              E "a" dto s (sample_task "a" PENDING 0) eq_refl)
    as (s' & Hrun & Hfind & Hq).
  exists s'. split; [exact Hrun |]. split; [exact Hfind |].
  apply Hq; [discriminate | reflexivity].
Defined.

(** X23.  An empty string is treated differently by the two revisions of
    update(): given as title, the current revision stores it (Object.assign
    copies every property the DTO carries), while the first revision keeps
    the former title (its test [if (dto.title)] is false for it). *)
Theorem empty_title_stored_or_ignored
  (E : Engine) (i : string) (dto : UpdateTaskDto.t) (s : State) (t : Task) :
  find (has_id i) (table s) = Some t ->
  UpdateTaskDto.title dto = Some ""%string ->
  (forall s' t', update E i dto s = (s', Returned t') -> title t' = ""%string)
  /\ (forall s' t', FirstRevision.update E i dto s = (s', Returned t') ->
                    title t' = title t).
Proof.
  intros Hfind Htitle. split.
  - intros s' t' Hrun.
    destruct (update_returned _ _ _ _ _ _ _ Hfind Hrun) as (-> & _).
    unfold assign. simpl. now rewrite Htitle.
  - intros s' t'. rewrite (first_revision_update_run E i dto s t Hfind).
    intros H. inversion H; subst t'.
    unfold FirstRevision.assign_truthy. simpl. now rewrite Htitle.
Qed.

Lemma empty_title_stored_or_ignored_witness :
  let E := insertion_order_engine always [] in
  let s := stored [sample_task "a" PENDING 0] in
  let dto := UpdateTaskDto.make (Some ""%string) None None None None in
  option_map title (find (has_id "a") (table (fst (update E "a" dto s))))
  = Some ""%string
  /\ forall s' t', FirstRevision.update E "a" dto s = (s', Returned t') ->
                   title t' = "write report"%string.
Proof.
  intros E s dto.
  destruct (empty_title_stored_or_ignored E "a" dto s (sample_task "a" PENDING 0)
              eq_refl eq_refl) as [_ Hfirst].
  split; [reflexivity | exact Hfirst].
Defined.
